(** * Receipt processor (funcx-v7/receipt_processor/__init__.py)

    A shallow embedding of the event handler [func701] and of its helpers
    [get_username_from_db], [get_field_value] and [get_field_confidence],
    together with the properties the specification states about them.

    Conventions of the embedding.
    - Python values that flow into the persisted document are [pyval]s;
      [PNone] is Python's [None].
    - A Python float is a binary64 number. It is held as the rational
      it denotes, and every operation on floats rounds its exact result
      to the nearest binary64 number, ties to even ([b64]); overflow,
      infinities and NaN are outside the model. The model is checked
      against the machine's binary64 arithmetic on examples.
    - Dictionaries are [gmap]s with string keys.
    - The external collaborators (environment, file system, MySQL, blob
      storage, image library, Document Intelligence, Cosmos DB, uuid) are
      the fields of a [World]; a call that can raise returns a [result].
    - Statements run in the monad [M]: it accumulates the trace of log
      records and collaborator calls and carries the control outcome
      (fall through, [return], or a propagating exception). *)

From Stdlib Require Import Ascii String DecimalString.
From Stdlib Require Import QArith Qabs Qround Qpower Lqa.
From Stdlib Require Import PrimFloat FloatOps SpecFloat.
From stdpp Require Import gmap strings list fin_maps.

Local Open Scope string_scope.
Local Open Scope list_scope.

(** ** Python strings *)

Module PyStr.

(** [s.split(sep)] for a one-character separator: always at least one
    segment, empty segments kept. *)
Fixpoint split (sep : ascii) (s : string) : list string :=
  match s with
  | EmptyString => [EmptyString]
  | String c s' =>
      if Ascii.eqb c sep then EmptyString :: split sep s'
      else match split sep s' with
           | h :: t => String c h :: t
           | [] => [String c EmptyString]
           end
  end.

(** [sep.join(l)]. *)
Fixpoint join (sep : string) (l : list string) : string :=
  match l with
  | [] => EmptyString
  | [x] => x
  | x :: rest => x +:+ sep +:+ join sep rest
  end.

(** [s.endswith(suffix)]: some tail of [s] is [suffix]. *)
Fixpoint endswith (s suffix : string) : bool :=
  if String.eqb s suffix then true
  else match s with
       | EmptyString => false
       | String _ s' => endswith s' suffix
       end.

(** Truthiness of a string: [bool(s)]. *)
Definition truthy (s : string) : bool := negb (String.eqb s EmptyString).

(** Truthiness of [os.environ.get(k)]: neither [None] nor empty. *)
Definition truthy_opt (o : option string) : bool :=
  match o with
  | Some s => truthy s
  | None => false
  end.

(** [str(o)] of an optional string, as an f-string renders it. *)
Definition fmt_opt (o : option string) : string :=
  match o with
  | Some s => s
  | None => "None"
  end.


End PyStr.

(** ** Python values *)

(** The values that reach the persisted document or the event payload. *)
Inductive pyval : Type :=
| PNone
| PStr (s : string)
| PNum (x : Q)
| PBool (b : bool).

(** [bool(v)]. *)
Definition pyval_truthy (v : pyval) : bool :=
  match v with
  | PNone => false
  | PStr s => PyStr.truthy s
  | PNum x => negb (Qeq_bool x 0)
  | PBool b => b
  end.

Definition is_none (v : pyval) : bool :=
  match v with
  | PNone => true
  | _ => false
  end.

(** Exceptions: the class name and the message. *)
Record exn : Type := Exception { exc_type : string; exc_msg : string }.

Inductive result (A : Type) : Type :=
| Ok (a : A)
| Err (e : exn).
Arguments Ok {A} a.
Arguments Err {A} e.

(** ** Blob path parsing (func701, lines 144-168) *)

(** Lines 145-147: [url_parts = blob_url.split('/')],
    [blob_path = "/".join(url_parts[4:])], [container_name = url_parts[3]].
    The slice never raises; the index raises [IndexError] when there are
    fewer than four segments, which is the [None] here.
    The result is [(container_name, blob_path)]. *)
Definition parse_blob_url (blob_url : string) : option (string * string) :=
  let url_parts := PyStr.split "/" blob_url in
  let blob_path := PyStr.join "/" (drop 4 url_parts) in
  match url_parts !! 3%nat with
  | Some container_name => Some (container_name, blob_path)
  | None => None
  end.

(** Lines 159-165: [blob_path_parts = blob_path.split('/')]; with at least
    three parts the owner and the subdirectory are parts 0 and 1.
    The result is [(user_id, random_subdirectory)]; [None] is the [else]
    branch. Nothing in the block raises, so its [except] clause (lines
    166-168) is never entered. *)
Definition parse_owner (blob_path : string) : option (string * string) :=
  let blob_path_parts := PyStr.split "/" blob_path in
  if (3 <=? length blob_path_parts)%nat then
    match blob_path_parts with
    | user_id :: random_subdirectory :: _ => Some (user_id, random_subdirectory)
    | _ => None
    end
  else None.

(** Line 152. *)
Definition is_placeholder (blob_path : string) : bool :=
  PyStr.endswith blob_path "/.placeholder".

(** ** The extraction service's typed fields *)

(** [datetime.date] and [datetime.time]; the library keeps
    [1 <= year <= 9999], [1 <= month <= 12], [1 <= day <= 31],
    [hour < 24], [minute < 60], [second < 60]. *)
Record date : Type := Date { year : nat; month : nat; day : nat }.
Record time : Type := Time { hour : nat; minute : nat; second : nat }.

Definition digit (n : nat) : ascii := ascii_of_nat (48 + n mod 10).

(** [%m], [%d], [%H], [%M], [%S]: two decimal digits, zero-padded. *)
Definition pad2 (n : nat) : string :=
  String (digit (n / 10)) (String (digit n) EmptyString).

(** [%Y] as the C library of Linux renders it (CPython up to 3.12 hands
    the format to it): the decimal digits of the year, without leading
    zeros. *)
Definition decimal (n : nat) : string := NilZero.string_of_uint (Nat.to_uint n).

(** [d.strftime('%Y-%m-%d')]. *)
Definition strftime_date (d : date) : string :=
  decimal (year d) +:+ "-" +:+ pad2 (month d) +:+ "-" +:+ pad2 (day d).

(** [t.strftime('%H:%M:%S')]. *)
Definition strftime_time (t : time) : string :=
  pad2 (hour t) +:+ ":" +:+ pad2 (minute t) +:+ ":" +:+ pad2 (second t).

Record CurrencyValue : Type := Currency { amount : option Q }.

(** A [DocumentField] of the service's response. An attribute that is
    missing ([hasattr] false) and an attribute that is [None] are both
    [None] here: the code reads every attribute behind
    [hasattr(..) and .. is not None]. [value] is the generic attribute
    the last test of [get_field_value] probes. *)
#[warnings="-register-all"]
Inductive DocumentField : Type :=
  mkDocumentField {
    value_string : option string;
    value_number : option Q;
    value_date : option date;
    value_time : option time;
    value_currency : option CurrencyValue;
    value : option pyval;
    value_array : option (list DocumentField);
    value_object : option (gmap string DocumentField);
    confidence : option Q
  }.

(** [get_field_value], lines 96-115. *)
Definition get_field_value (field : option DocumentField) : pyval :=
  match field with
  | None => PNone
  | Some field =>
      match value_string field with
      | Some s => PStr s
      | None =>
      match value_number field with
      | Some x => PNum x
      | None =>
      match value_date field with
      | Some d => PStr (strftime_date d)
      | None =>
      match value_time field with
      | Some t => PStr (strftime_time t)
      | None =>
      match
        match value_currency field with
        | Some cur => amount cur
        | None => None
        end
      with
      | Some a => PNum a
      | None =>
      match value field with
      | Some v => v
      | None => PNone
      end end end end end end
  end.

(** [get_field_confidence], lines 117-123. *)
Definition get_field_confidence (field : option DocumentField) : option Q :=
  match field with
  | None => None
  | Some field => confidence field
  end.

(** An analysed document and the analysis result. *)
Record AnalyzedDocument : Type :=
  mkAnalyzedDocument { fields : gmap string DocumentField }.
Record AnalyzeResult : Type :=
  mkAnalyzeResult { documents : option (list AnalyzedDocument) }.

(** ** Numbers: binary64, [sum], [len], [/], [round] *)

(** Rounding of a rational to the nearest integer, ties to even. *)
Definition round_half_even (x : Q) : Z :=
  let n := Qnum x in
  let d := Z.pos (Qden x) in
  let fl := (n / d)%Z in
  let r2 := (2 * (n mod d))%Z in
  if (r2 <? d)%Z then fl
  else if (d <? r2)%Z then (fl + 1)%Z
  else if Z.even fl then fl else (fl + 1)%Z.

(** The integer part of the binary logarithm of [|x|], for [x] other
    than 0: the logarithms of numerator and denominator differ from it
    by at most one, and one comparison decides. *)
Definition floor_log2 (x : Q) : Z :=
  let n := Z.abs (Qnum x) in
  let d := Z.pos (Qden x) in
  let L := Z.log2 n in
  let M := Z.log2 d in
  if (d * 2 ^ L <=? n * 2 ^ M)%Z then (L - M)%Z else (L - M - 1)%Z.

(** The exponent of the last place of the binary64 numbers around [x]:
    53 significant bits, and no exponent below that of the subnormal
    numbers. *)
Definition b64_exponent (x : Q) : Z := Z.max (floor_log2 x - 52) (-1074).

(** The binary64 number nearest to [x], ties to the even significand:
    the rounding every float operation applies to its exact result. *)
Definition b64 (x : Q) : Q :=
  if Qeq_bool x 0 then 0%Q
  else let e := b64_exponent x in
       Qred (inject_Z (round_half_even (x / 2 ^ e)) * 2 ^ e)%Q.


(** [x + y] and [x / y] on floats ([y] is not 0 where the code divides). *)
Definition float_add (x y : Q) : Q := b64 (x + y).
Definition float_div (x y : Q) : Q := b64 (x / y).

(** The float an [int] operand of a float operation is converted to. *)
Definition float_of_nat (n : nat) : Q := b64 (inject_Z (Z.of_nat n)).

(** [sum(l)] on floats: left to right from 0, every addition rounded
    (CPython up to 3.11; later versions compensate the rounding). *)
Definition py_sum (l : list Q) : Q := fold_left float_add l 0%Q.

(** [round(x, ndigits)] on a float: the multiple of [10^-ndigits]
    nearest to the exact value of [x], ties to even, and of that decimal
    the nearest binary64 number. *)
Definition py_round (x : Q) (ndigits : nat) : Q :=
  let scale := (10 ^ Z.of_nat ndigits)%Z in
  b64 (Qmake (round_half_even (x * inject_Z scale)) (Z.to_pos scale)).

(** *** The machine's binary64 numbers

    The rational a finite binary64 number of the machine denotes, in
    lowest terms for [double]; float literals are written in
    hexadecimal. *)
Definition float_value (f : float) : option Q :=
  match Prim2SF f with
  | S754_zero _ => Some 0%Q
  | S754_finite s m e =>
      let n := if s then Z.neg m else Z.pos m in
      Some (if (0 <=? e)%Z then inject_Z (n * 2 ^ e)
            else Qmake n (Z.to_pos (2 ^ (- e))))
  | _ => None
  end.

Definition double (f : float) : Q :=
  match float_value f with
  | Some q => Qred q
  | None => 0%Q
  end.

(** The machine's left-to-right evaluation of [sum(l) / len(l)] on the
    specification's example [0.9, 0.8, 0.95] and on
    [0.748, 0.725, 0.826, 0.894]. *)
Definition binary64_example_mean : float :=
  ((((0 + 0x1.ccccccccccccdp-1) + 0x1.999999999999ap-1) + 0x1.e666666666666p-1)
   / 3)%float.

Definition binary64_tie_mean : float :=
  (((((0 + 0x1.7ef9db22d0e56p-1) + 0x1.7333333333333p-1) + 0x1.a6e978d4fdf3bp-1)
    + 0x1.c9ba5e353f7cfp-1) / 4)%float.

(** ** Documents, events, collaborators *)

(** A line item is a dictionary of scalars; the values of
    [full_receipt_data] are scalars or the list of line items. *)
Inductive docval : Type :=
| DScalar (v : pyval)
| DItems (items : list (gmap string pyval)).

(** [func.HttpResponse(json.dumps(payload), status_code=..)]; the payload
    is kept as the dictionary handed to [json.dumps]. *)
Record HttpResponse : Type :=
  mkHttpResponse { payload : gmap string pyval; status_code : nat }.

(** [func.EventGridEvent]: [event.event_type] and [event.get_json()]. *)
Record EventGridEvent : Type :=
  mkEvent { event_type : string; event_json : gmap string pyval }.

Inductive level : Type := INFO | WARNING | ERROR.

(** What a run leaves behind, in order: log records ([exc_info] holds the
    exception logged with [exc_info=True]) and collaborator calls. *)
Inductive io_event : Type :=
| Log (lv : level) (msg : string) (exc_info : option exn)
| CallResolver (user_id : string)
| MySqlConnect (user password host database : string) (ssl_ca : option string)
| MySqlQuery (query param : string)
| MySqlCursorClose
| MySqlClose
| BlobDownload (connection_string container_name blob_name : string)
| AnalyzeDocument (endpoint key model_id : string) (content : list Byte.byte)
| CosmosConnect (endpoint key database container : string)
| CosmosCreateItem (body : gmap string docval).

(** A [pymysql] cursor: [execute(query, (param,))] followed by
    [fetchone()]; either can raise. A row is the tuple of its columns. *)
Record Cursor : Type :=
  mkCursor { run_query : string -> string -> result (option (list pyval)) }.

(** A [pymysql] connection: [cnx.cursor()] and [cnx.open] as the [finally]
    clause reads it. Closing a cursor or a connection does not raise. *)
Record Connection : Type :=
  mkConnection { cnx_cursor : result Cursor; cnx_open : bool }.

Record CosmosContainer : Type :=
  mkCosmosContainer { create_item : gmap string docval -> result unit }.

(** The collaborators of one invocation. Every exception they raise
    derives from [Exception]. *)
Record World : Type :=
  mkWorld {
    (** [os.environ] *)
    environ : gmap string string;
    (** [os.path.dirname(__file__)] *)
    script_dir : string;
    (** [os.path.exists] *)
    path_exists : string -> bool;
    (** [pymysql.connect(user, password, host, database, ssl)] *)
    pymysql_connect : string -> string -> string -> string -> option string -> result Connection;
    (** [BlobClient.from_connection_string(..).download_blob().readall()] *)
    download_blob : string -> string -> string -> result (list Byte.byte);
    (** [Image.open], [convert('L')], [save(.., format='JPEG')] *)
    grayscale_jpeg : list Byte.byte -> result (list Byte.byte);
    (** [DocumentIntelligenceClient(..).begin_analyze_document(..).result()] *)
    begin_analyze_document : string -> string -> string -> list Byte.byte -> result AnalyzeResult;
    (** [CosmosClient(..).get_database_client(..).get_container_client(..)] *)
    cosmos_container_client : string -> string -> string -> string -> result CosmosContainer;
    (** [str(uuid.uuid4())] *)
    uuid4 : string
  }.

(** ** The statement monad *)

(** How a statement ends: it falls through with a value, executes
    [return r], or lets an exception propagate. *)
Inductive ctl (R A : Type) : Type :=
| Fall (a : A)
| Return (r : R)
| Raise (e : exn).
Arguments Fall {R A} a.
Arguments Return {R A} r.
Arguments Raise {R A} e.

Definition M (R A : Type) : Type := list io_event * ctl R A.

Section Monad.
Context {R : Type}.

Definition M_ret {A} (a : A) : M R A := ([], Fall a).

Definition M_bind {A B} (f : A -> M R B) (m : M R A) : M R B :=
  match m with
  | (t, Fall a) => let '(t', c) := f a in (t ++ t', c)
  | (t, Return r) => (t, Return r)
  | (t, Raise e) => (t, Raise e)
  end.

Definition emit (e : io_event) : M R unit := ([e], Fall tt).

Definition log (lv : level) (msg : string) : M R unit :=
  emit (Log lv msg None).

(** [logging.error(msg, exc_info=True)] inside an [except] clause. *)
Definition log_exc (lv : level) (msg : string) (e : exn) : M R unit :=
  emit (Log lv msg (Some e)).

Definition return_ {A} (r : R) : M R A := ([], Return r).

Definition raise {A} (e : exn) : M R A := ([], Raise e).

(** A collaborator's answer: its value, or its exception propagating. *)
Definition lift {A} (r : result A) : M R A :=
  match r with
  | Ok a => ([], Fall a)
  | Err e => ([], Raise e)
  end.

(** [try: m  except Exception as e: h e]. *)
Definition try_except {A} (m : M R A) (h : exn -> M R A) : M R A :=
  match m with
  | (t, Raise e) => let '(t', c) := h e in (t ++ t', c)
  | _ => m
  end.

(** [try: m  finally: fin]: [fin] runs on every exit of [m]; when [fin]
    falls through the exit of [m] stands. *)
Definition try_finally {A} (m : M R A) (fin : M R unit) : M R A :=
  let '(t, c) := m in
  match fin with
  | (t', Fall _) => (t ++ t', c)
  | (t', Return r) => (t ++ t', Return r)
  | (t', Raise e) => (t ++ t', Raise e)
  end.

End Monad.

Global Instance M_mret {R} : MRet (M R) := @M_ret R.
Global Instance M_mbind {R} : MBind (M R) := @M_bind R.

(** A call of a function whose body is [m]: [return r] gives [r],
    falling off the end gives [dflt] (Python's [None]). *)
Definition call {R R' : Type} (dflt : R) (m : M R unit) : M R' R :=
  match m with
  | (t, Fall _) => (t, Fall dflt)
  | (t, Return r) => (t, Fall r)
  | (t, Raise e) => (t, Raise e)
  end.

(** What the host sees of an invocation. *)
Inductive outcome (R : Type) : Type :=
| Returned (r : R)
| Raised (e : exn).
Arguments Returned {R} r.
Arguments Raised {R} e.

Definition run {R : Type} (dflt : R) (m : M R unit) : list io_event * outcome R :=
  match m with
  | (t, Fall _) => (t, Returned dflt)
  | (t, Return r) => (t, Returned r)
  | (t, Raise e) => (t, Raised e)
  end.

(** ** The username resolver (get_username_from_db, lines 17-94) *)

(** [os.path.join(a, b)] for a relative [b]. *)
Definition os_path_join (a b : string) : string :=
  if String.eqb a "" then b
  else if PyStr.endswith a "/" then a +:+ b
  else a +:+ "/" +:+ b.

(** Log messages carry the literal text and the interpolated strings;
    an interpolated value that is not a string is written [{}]. *)

(** Lines 25-67: up to and including [pymysql.connect]. Falls through
    with the connection bound to [cnx]. *)
Definition connect_phase (w : World) : M pyval Connection :=
  let mysql_host := environ w !! "MYSQL_HOST" in
  let mysql_user := environ w !! "MYSQL_USER" in
  let mysql_password := environ w !! "MYSQL_PASSWORD" in
  let mysql_database := environ w !! "MYSQL_DATABASE" in
  let default_ssl_ca_path := os_path_join (script_dir w) "cert_combined_ca.pem" in
  let mysql_ssl_ca_path := default default_ssl_ca_path (environ w !! "DB_SSL_CA_PATH") in
  log INFO ("Attempting MySQL connection with Host: " +:+ PyStr.fmt_opt mysql_host
            +:+ ", User: " +:+ PyStr.fmt_opt mysql_user
            +:+ ", DB: " +:+ PyStr.fmt_opt mysql_database
            +:+ ", SSL Path: " +:+ mysql_ssl_ca_path);;
  (if negb (forallb PyStr.truthy_opt
              [mysql_host; mysql_user; mysql_password; mysql_database])
   then log ERROR "Missing one or more required MySQL environment variables.";;
        return_ PNone
   else mret tt);;
  ssl_options ←
    (if PyStr.truthy mysql_ssl_ca_path && path_exists w mysql_ssl_ca_path
     then log INFO ("SSL CA path found at: " +:+ mysql_ssl_ca_path);;
          mret (Some mysql_ssl_ca_path)
     else if PyStr.truthy mysql_ssl_ca_path
     then log ERROR ("SSL CA path specified but file not found at: "
                     +:+ mysql_ssl_ca_path);;
          mret None
     else log INFO "No SSL CA path provided or found, proceeding with default SSL.";;
          mret None);
  log INFO "Connecting to MySQL...";;
  emit (MySqlConnect (default "" mysql_user) (default "" mysql_password)
          (default "" mysql_host) (default "" mysql_database) ssl_options);;
  cnx ← lift (pymysql_connect w (default "" mysql_user) (default "" mysql_password)
                (default "" mysql_host) (default "" mysql_database) ssl_options);
  log INFO "MySQL connection successful.";;
  mret cnx.

(** Lines 72-81: the query and the reading of its first row. Falls
    through with the value bound to [username]. *)
Definition query_phase (cursor : Cursor) (user_id : string) : M pyval pyval :=
  let query := "SELECT username FROM users WHERE id = %s" in
  emit (MySqlQuery query user_id);;
  result ← lift (run_query cursor query user_id);
  match result with
  | Some (username :: _) =>
      log INFO ("Username '{}' found for user ID '" +:+ user_id +:+ "'.");;
      mret username
  | _ =>
      log WARNING ("No username found for user ID '" +:+ user_id +:+ "'.");;
      mret PNone
  end.

(** The [try] block, lines 23-81, with the values of [cnx] and [cursor]
    at its exit, which the [finally] clause reads. *)
Definition try_block (w : World) (user_id : string)
  : option Connection * option Cursor * M pyval pyval :=
  match connect_phase w with
  | (t, Fall cnx) =>
      match cnx_cursor cnx with
      | Ok cursor => (Some cnx, Some cursor, ((t, Fall tt) : M pyval unit);; query_phase cursor user_id)
      | Err e => (Some cnx, None, (t, Raise e))
      end
  | (t, Return r) => (None, None, (t, Return r))
  | (t, Raise e) => (None, None, (t, Raise e))
  end.

(** Lines 83-85. *)
Definition except_clause (err : exn) : M pyval pyval :=
  log_exc ERROR ("AN ERROR OCCURRED IN get_username_from_db: " +:+ exc_msg err) err;;
  return_ PNone.

(** Lines 87-92. *)
Definition finally_clause (cnx : option Connection) (cursor : option Cursor)
  : M pyval unit :=
  match cnx with
  | Some c =>
      if cnx_open c then
        match cursor with
        | Some _ => emit MySqlCursorClose
        | None => mret tt
        end;;
        emit MySqlClose;;
        log INFO "MySQL connection closed."
      else mret tt
  | None => mret tt
  end.

Definition get_username_from_db (w : World) (user_id : string) : M pyval unit :=
  let '(cnx, cursor, body) := try_block w user_id in
  username ← try_finally (try_except body except_clause) (finally_clause cnx cursor);
  return_ username.

(** ** Field mapping (func701, lines 183-304) *)

(** The local variables the extraction block assigns. *)
Record Locals : Type :=
  mkLocals {
    fecha_transaccion : pyval;
    monto_total : pyval;
    extracted_items : list (gmap string pyval);
    full_receipt_data : gmap string docval;
    item_confidences : list Q
  }.

(** Lines 183-187. *)
Definition initial_locals : Locals :=
  mkLocals PNone PNone [] ∅ [].

Definition set_receipt_data (k : string) (v : docval) (l : Locals) : Locals :=
  mkLocals (fecha_transaccion l) (monto_total l) (extracted_items l)
    (<[k := v]> (full_receipt_data l)) (item_confidences l).

(** [bool(d)] of a dictionary. *)
Definition dict_truthy {A} (d : gmap string A) : bool :=
  negb (Nat.eqb (size d) 0).

(** One of the four blocks of lines 244-267: when [key] is in the
    sub-record, store its value under [out_key] and collect its
    confidence when it has one. *)
Definition read_subfield (value_object : gmap string DocumentField)
    (key out_key : string) (st : gmap string pyval * list Q)
  : gmap string pyval * list Q :=
  let '(item_data, item_confidences) := st in
  match value_object !! key with
  | Some sub_field =>
      (<[out_key := get_field_value (Some sub_field)]> item_data,
       match get_field_confidence (Some sub_field) with
       | Some confidence => item_confidences ++ [confidence]
       | None => item_confidences
       end)
  | None => st
  end.

(** The body of the loop over [items_field.value_array], lines 242-271,
    on the pair [(extracted_items, item_confidences)]. *)
Definition process_item {R} (item_doc_field : DocumentField)
    (st : list (gmap string pyval) * list Q)
  : M R (list (gmap string pyval) * list Q) :=
  let '(extracted_items, item_confidences) := st in
  match value_object item_doc_field with
  | Some vo =>
      if dict_truthy vo then
        let '(item_data, item_confidences) :=
          read_subfield vo "UnitPrice" "unitPrice"
            (read_subfield vo "TotalPrice" "totalPrice"
               (read_subfield vo "Quantity" "quantity"
                  (read_subfield vo "Description" "description"
                     (∅, item_confidences)))) in
        if dict_truthy item_data
        then mret (extracted_items ++ [item_data], item_confidences)
        else mret (extracted_items, item_confidences)
      else
        log WARNING "Item DocumentField found but no value_object for item.";;
        mret (extracted_items, item_confidences)
  | None =>
      log WARNING "Item DocumentField found but no value_object for item.";;
      mret (extracted_items, item_confidences)
  end.

(** [for x in l: body]. *)
Fixpoint for_each {R A S} (body : A -> S -> M R S) (l : list A) (s : S) : M R S :=
  match l with
  | [] => mret s
  | x :: rest => s' ← body x s; for_each body rest s'
  end.

(** Lines 226-236: one of the two required fields, also kept in a local. *)
Definition read_fecha {R} (doc : AnalyzedDocument) (l : Locals) : M R Locals :=
  match fields doc !! "FechaTransaccion" with
  | Some f =>
      let v := get_field_value (Some f) in
      mret (set_receipt_data "fechaTransaccion" (DScalar v)
              (mkLocals v (monto_total l) (extracted_items l)
                 (full_receipt_data l) (item_confidences l)))
  | None => log WARNING "FechaTransaccion field not found.";; mret l
  end.

Definition read_monto {R} (doc : AnalyzedDocument) (l : Locals) : M R Locals :=
  match fields doc !! "MontoTotal" with
  | Some f =>
      let v := get_field_value (Some f) in
      mret (set_receipt_data "montoTotal" (DScalar v)
              (mkLocals (fecha_transaccion l) v (extracted_items l)
                 (full_receipt_data l) (item_confidences l)))
  | None => log WARNING "MontoTotal field not found.";; mret l
  end.

(** Lines 238-276. *)
Definition read_items {R} (doc : AnalyzedDocument) (l : Locals) : M R Locals :=
  match fields doc !! "Items" with
  | Some items_field =>
      match value_array items_field with
      | Some ((_ :: _) as arr) =>
          '(items, confs) ← for_each process_item arr
                             (extracted_items l, item_confidences l);
          mret (set_receipt_data "items" (DItems items)
                  (mkLocals (fecha_transaccion l) (monto_total l) items
                     (full_receipt_data l) confs))
      | _ =>
          log WARNING "Items field found but its value_array is missing or not a list.";;
          mret l
      end
  | None => log WARNING "Items field not found.";; mret l
  end.

(** One of the blocks of lines 278-293. *)
Definition copy_field (doc : AnalyzedDocument) (key out_key : string) (l : Locals)
  : Locals :=
  match fields doc !! key with
  | Some f => set_receipt_data out_key (DScalar (get_field_value (Some f))) l
  | None => l
  end.

(** Lines 226-293 on one document. *)
Definition read_document {R} (doc : AnalyzedDocument) (l : Locals) : M R Locals :=
  l ← read_fecha doc l;
  l ← read_monto doc l;
  l ← read_items doc l;
  mret (copy_field doc "BaseImponible" "baseImponible"
          (copy_field doc "MontoIVA" "montoIVA"
             (copy_field doc "MontoExento" "montoExento"
                (copy_field doc "RIF-CI" "rifCI"
                   (copy_field doc "NombreRazon" "nombreRazon"
                      (copy_field doc "FacturaNumero" "facturaNumero"
                         (copy_field doc "RIF-comercio" "rifComercio"
                            (copy_field doc "NombreComercio" "nombreComercio" l)))))))).

(** Lines 299-304. *)
Definition score_items {R} (l : Locals) : M R Locals :=
  match item_confidences l with
  | _ :: _ =>
      let average_item_confidence :=
        float_div (py_sum (item_confidences l))
          (float_of_nat (length (item_confidences l))) in
      mret (set_receipt_data "itemsConfidenceScore"
              (DScalar (PNum (py_round average_item_confidence 4))) l)
  | [] =>
      l' ← mret (set_receipt_data "itemsConfidenceScore" (DScalar PNone) l);
      log WARNING "No item confidence scores were collected.";;
      mret l'
  end.

(** Lines 224-297: the loop over the documents leaves at its first
    iteration ([break], line 295). *)
Definition read_documents {R} (receipt_result : AnalyzeResult) : M R Locals :=
  match documents receipt_result with
  | Some (doc :: _) => read_document doc initial_locals
  | _ => log WARNING "No documents found in receipt_result.";;
         mret initial_locals
  end.

(** Lines 224-304: the mapping of an analysis result. *)
Definition extract_fields {R} (receipt_result : AnalyzeResult) : M R Locals :=
  l ← read_documents receipt_result;
  score_items l.

(** ** The handler (func701, lines 126-348) *)

(** Lines 189-304, the body of the [try] of the extraction block: fetch
    the blob, convert the image, call the extraction service, map the
    result. *)
Definition extraction_block {R} (w : World)
    (doc_int_endpoint doc_int_key container_name blob_path : string) : M R Locals :=
  connection_string ←
    match environ w !! "AzureWebJobsStorage" with
    | Some s => mret s
    | None => raise (Exception "KeyError" "'AzureWebJobsStorage'")
    end;
  emit (BlobDownload connection_string container_name blob_path);;
  blob_content ← lift (download_blob w connection_string container_name blob_path);
  log INFO "Original image size: {} KB";;
  blob_content ←
    try_except
      (optimized ← lift (grayscale_jpeg w blob_content);
       log INFO "Optimized image size (grayscale only): {} KB";;
       mret optimized)
      (λ img_ex,
         log WARNING ("Could not pre-process image, using original. Error: "
                      +:+ exc_msg img_ex);;
         mret blob_content);
  emit (AnalyzeDocument doc_int_endpoint doc_int_key "TrainingHard1" blob_content);;
  receipt_result ←
    lift (begin_analyze_document w doc_int_endpoint doc_int_key "TrainingHard1"
            blob_content);
  extract_fields receipt_result.

(** Lines 330-338: the dictionary display; the entries of
    [full_receipt_data] come last and win on a shared key. *)
Definition final_cosmos_document (receipt_document_id user_id : string)
    (username : pyval) (random_subdirectory blob_url : string)
    (full_receipt_data : gmap string docval) : gmap string docval :=
  full_receipt_data ∪
  (<["blobURL" := DScalar (PStr blob_url)]>
     (<["directorio" := DScalar (PStr random_subdirectory)]>
        (<["username" := DScalar username]>
           (<["id_usuario" := DScalar (PStr user_id)]>
              (<["userId" := DScalar (PStr user_id)]>
                 (<["id" := DScalar (PStr receipt_document_id)]> ∅)))))).

(** Lines 314-348. *)
Definition persist {R} (w : World) (user_id : string) (username : pyval)
    (random_subdirectory blob_url : string) (l : Locals) : M (option R) unit :=
  let cosmos_endpoint := environ w !! "COSMOS_ENDPOINT" in
  let cosmos_key := environ w !! "COSMOS_KEY" in
  let cosmos_database_name := environ w !! "COSMOS_DATABASE_NAME" in
  let cosmos_container_name := environ w !! "COSMOS_CONTAINER_NAME" in
  (if negb (forallb PyStr.truthy_opt
              [cosmos_endpoint; cosmos_key; cosmos_database_name; cosmos_container_name])
   then log ERROR "Missing one or more Cosmos DB connection environment variables.";;
        return_ None
   else mret tt);;
  try_finally
    (try_except
       (emit (CosmosConnect (default "" cosmos_endpoint) (default "" cosmos_key)
                (default "" cosmos_database_name) (default "" cosmos_container_name));;
        container ← lift (cosmos_container_client w
                            (default "" cosmos_endpoint) (default "" cosmos_key)
                            (default "" cosmos_database_name)
                            (default "" cosmos_container_name));
        let receipt_document_id := uuid4 w in
        let final_cosmos_document :=
          final_cosmos_document receipt_document_id user_id username
            random_subdirectory blob_url (full_receipt_data l) in
        emit (CosmosCreateItem final_cosmos_document);;
        lift (create_item container final_cosmos_document);;
        log INFO "Receipt data successfully saved to Cosmos DB with new fields.";;
        log INFO ("Document saved for user ID: " +:+ user_id
                  +:+ ". Document ID: " +:+ receipt_document_id))
       (λ e,
          log_exc ERROR ("An unexpected error occurred during Cosmos DB operation: "
                         +:+ exc_msg e) e))
    (log INFO "--- FUNCTION FINISHED ---").

(** Lines 142-348: the creation branch once the URL is a string. *)
Definition process_blob {R} (w : World) (blob_url : string) : M (option R) unit :=
  log INFO ("Processing blob from URL: " +:+ blob_url);;
  '(container_name, blob_path) ←
    match parse_blob_url blob_url with
    | Some p => mret p
    | None => log ERROR ("Could not parse blob URL: " +:+ blob_url);; return_ None
    end;
  (if is_placeholder blob_path
   then log INFO ("Ignoring placeholder file: " +:+ blob_path);; return_ None
   else mret tt);;
  '(user_id, random_subdirectory) ←
    match parse_owner blob_path with
    | Some p => mret p
    | None =>
        log ERROR ("Could not extract user ID and directory from blob path: "
                   +:+ blob_path);;
        return_ None
    end;
  log INFO ("Processing blob for user ID: " +:+ user_id +:+ ". Directory: "
            +:+ random_subdirectory +:+ ". Blob name: " +:+ blob_path);;
  emit (CallResolver user_id);;
  username ← call PNone (get_username_from_db w user_id);
  (if is_none username
   then log WARNING ("Proceeding without username for user ID: " +:+ user_id
                     +:+ ". This may indicate a DB connection issue.")
   else mret tt);;
  let doc_int_endpoint := environ w !! "DI_ENDPOINT" in
  let doc_int_key := environ w !! "DI_KEY" in
  (if negb (forallb PyStr.truthy_opt [doc_int_endpoint; doc_int_key])
   then log ERROR "Missing Document Intelligence endpoint or key environment variables.";;
        return_ None
   else mret tt);;
  l ← try_except
        (extraction_block w (default "" doc_int_endpoint) (default "" doc_int_key)
           container_name blob_path)
        (λ e,
           log_exc ERROR ("An error occurred during Document Intelligence processing for "
                          +:+ blob_path +:+ ": " +:+ exc_msg e) e;;
           return_ None);
  (if is_none (fecha_transaccion l) || is_none (monto_total l)
   then log WARNING ("Could not extract all required data for blob: " +:+ blob_path
                     +:+ ". FechaTransaccion: {}, MontoTotal: {}. Data not saved to DB.");;
        return_ None
   else mret tt);;
  persist w user_id username random_subdirectory blob_url l.

(** Lines 136-140: the creation branch. [blob_url.split] exists on
    strings only; on another truthy value the [AttributeError] is not
    caught by [except IndexError]. *)
Definition blob_created {R} (w : World) (event_data : gmap string pyval)
  : M (option R) unit :=
  let blob_url := default PNone (event_data !! "url") in
  if negb (pyval_truthy blob_url)
  then log ERROR "Blob URL not found in event data.";; return_ None
  else match blob_url with
       | PStr blob_url => process_blob w blob_url
       | _ =>
           log INFO "Processing blob from URL: {}";;
           raise (Exception "AttributeError" "object has no attribute 'split'")
       end.

Definition func701 (w : World) (event : EventGridEvent) : M (option HttpResponse) unit :=
  log INFO "--- FUNCTION STARTED ---";;
  let event_data := event_json event in
  (if String.eqb (event_type event) "Microsoft.EventGrid.SubscriptionValidationEvent"
   then
     let validation_code := default PNone (event_data !! "validationCode") in
     log INFO "Got SubscriptionValidation event. Validation code: {}";;
     return_ (Some (mkHttpResponse {["validationResponse" := validation_code]} 200))
   else mret tt);;
  if String.eqb (event_type event) "Microsoft.Storage.BlobCreated"
  then blob_created w event_data
  else mret tt.

(** One invocation by the host: the trace and what the host sees. *)
Definition invoke (w : World) (event : EventGridEvent)
  : list io_event * outcome (option HttpResponse) :=
  run None (func701 w event).

(** ** Observations on traces *)

(** The documents handed to [create_item], in order. *)
Fixpoint writes (tr : list io_event) : list (gmap string docval) :=
  match tr with
  | [] => []
  | CosmosCreateItem body :: rest => body :: writes rest
  | _ :: rest => writes rest
  end.

(** A record of the trace that is a collaborator call (anything but a
    log record). *)
Definition is_call (e : io_event) : bool :=
  match e with
  | Log _ _ _ => false
  | _ => true
  end.

Definition calls (tr : list io_event) : list io_event := List.filter is_call tr.

(** ** Reference definitions for the stated properties *)

(** The last [width] decimal digits of [n], leading zeros included. *)
Fixpoint zero_padded (width n : nat) : list ascii :=
  match width with
  | O => []
  | S width' => zero_padded width' (n / 10) ++ [ascii_of_nat (48 + n mod 10)]
  end.







(** The four sub-fields of an item sub-record and the keys of the line
    item they are stored under. *)
Definition item_keys : list (string * string) :=
  [ ("Description", "description"); ("Quantity", "quantity");
    ("TotalPrice", "totalPrice"); ("UnitPrice", "unitPrice") ].

(** The sub-field [key] of an item sub-record, when it was extracted. *)
Definition sub_field (item : DocumentField) (key : string) : option DocumentField :=
  value_object item ≫= λ vo, vo !! key.

(** At least one of the four sub-fields was extracted. *)
Definition item_included (item : DocumentField) : bool :=
  existsb (λ k, bool_decide (is_Some (sub_field item k.1))) item_keys.

(** The line item of a sub-record: each extracted sub-field's scalar
    under its key. *)
Definition line_item (item : DocumentField) : gmap string pyval :=
  fold_left
    (λ d k, match sub_field item k.1 with
            | Some f => <[k.2 := get_field_value (Some f)]> d
            | None => d
            end)
    item_keys ∅.

(** The confidences of the extracted sub-fields of a sub-record. *)
Definition subfield_confidences (item : DocumentField) : list Q :=
  omap (λ k, sub_field item k.1 ≫= confidence) item_keys.

(** The [Items] array of a document, empty when there is none. *)
Definition doc_items_array (doc : AnalyzedDocument) : list DocumentField :=
  match fields doc !! "Items" with
  | Some items_field => default [] (value_array items_field)
  | None => []
  end.

(** The [Items] array of the first document. *)
Definition items_array (r : AnalyzeResult) : list DocumentField :=
  match documents r with
  | Some (doc :: _) => doc_items_array doc
  | _ => []
  end.

(** All confidences collected over the items. *)
Definition collected_confidences (r : AnalyzeResult) : list Q :=
  flat_map subfield_confidences (items_array r).

(** The arithmetic mean, exact. *)
Definition arithmetic_mean (l : list Q) : Q :=
  (fold_right Qplus 0 l / inject_Z (Z.of_nat (length l)))%Q.

(** The mean rounded to four decimal places, exact: the nearest
    multiple of 1/10000, ties to even. *)
Definition rounded_mean (l : list Q) : Q :=
  (round_half_even (arithmetic_mean l * 10000) # 10000)%Q.

(** The score of a list of confidences as a Python program computes
    [round(sum(l) / len(l), 4)]: null without confidences. *)
Definition confidence_score (l : list Q) : pyval :=
  match l with
  | [] => PNone
  | _ => PNum (py_round (float_div (py_sum l) (float_of_nat (length l))) 4)
  end.

(** The value extracted for a top-level field: that of the first
    document, null when the field or the document is absent. *)
Definition extracted_value (r : AnalyzeResult) (key : string) : pyval :=
  match documents r with
  | Some (doc :: _) => get_field_value (fields doc !! key)
  | _ => PNone
  end.

(** [l'] agrees with [l] on [full_receipt_data] outside the keys [ks]. *)
Definition data_agree_outside (ks : list string) (l l' : Locals) : Prop :=
  ∀ key, Forall (λ k, k ≠ key) ks →
         full_receipt_data l' !! key = full_receipt_data l !! key.

(** [l'] has the local variables of [l] other than [full_receipt_data]. *)
Definition same_variables (l l' : Locals) : Prop :=
  fecha_transaccion l' = fecha_transaccion l
  ∧ monto_total l' = monto_total l
  ∧ extracted_items l' = extracted_items l
  ∧ item_confidences l' = item_confidences l.

(** The keys [full_receipt_data] can hold. *)
Definition receipt_keys : list string :=
  [ "itemsConfidenceScore"; "baseImponible"; "montoIVA"; "montoExento"; "rifCI";
    "nombreRazon"; "facturaNumero"; "rifComercio"; "nombreComercio";
    "items"; "montoTotal"; "fechaTransaccion" ].

(** The records the username resolver can leave in a trace. *)
Definition resolver_event (e : io_event) : bool :=
  match e with
  | Log _ _ _ | MySqlConnect _ _ _ _ _ | MySqlQuery _ _
  | MySqlCursorClose | MySqlClose => true
  | _ => false
  end.

(** The image bytes handed to the extraction service: the converted
    image, or the original when the conversion raised. *)
Definition normalized_image (w : World) (blob_content : list Byte.byte)
  : list Byte.byte :=
  match grayscale_jpeg w blob_content with
  | Ok optimized => optimized
  | Err _ => blob_content
  end.

(** ** Sample data *)

Definition example_url : string :=
  "https://acct.blob.core.windows.net/container/user123/subdirABC/receipt.jpg".

Definition empty_field : DocumentField :=
  mkDocumentField None None None None None None None None None.

Definition string_field (s : string) (conf : option Q) : DocumentField :=
  mkDocumentField (Some s) None None None None None None None conf.

Definition number_field (x : Q) (conf : option Q) : DocumentField :=
  mkDocumentField None (Some x) None None None None None None conf.

Definition date_field (d : date) : DocumentField :=
  mkDocumentField None None (Some d) None None None None None None.

Definition object_field (o : gmap string DocumentField) : DocumentField :=
  mkDocumentField None None None None None None None (Some o) None.

Definition array_field (a : list DocumentField) : DocumentField :=
  mkDocumentField None None None None None None (Some a) None None.

(** Three sub-records: one with a description and a quantity, one with
    no known sub-field, one with a total price. *)
Definition sample_items : list DocumentField :=
  [ object_field
      (<["Description" := string_field "pan" (Some (double 0x1.ccccccccccccdp-1))]>
         (<["Quantity" := number_field 2 (Some (double 0x1.999999999999ap-1))]> ∅));
    object_field (<["Other" := string_field "x" None]> ∅);
    object_field
      (<["TotalPrice" := number_field 5 (Some (double 0x1.e666666666666p-1))]> ∅) ].

Definition sample_receipt : AnalyzeResult :=
  mkAnalyzeResult
    (Some [mkAnalyzedDocument
             (<["FechaTransaccion" := date_field (Date 2024 3 7)]>
                (<["MontoTotal" := number_field (1250 # 100) (Some (99 # 100))]>
                   (<["Items" := array_field sample_items]> ∅)))]).

(** A receipt whose one item carries the confidences 0.748, 0.725,
    0.826 and 0.894: their exact mean is just below the midpoint of
    0.7982 and 0.7983. *)
Definition tie_confidences : list Q :=
  [ double 0x1.7ef9db22d0e56p-1; double 0x1.7333333333333p-1;
    double 0x1.a6e978d4fdf3bp-1; double 0x1.c9ba5e353f7cfp-1 ].



Definition sample_environ : gmap string string :=
  list_to_map
    [ ("MYSQL_HOST", "db.example"); ("MYSQL_USER", "reader");
      ("MYSQL_PASSWORD", "secret"); ("MYSQL_DATABASE", "app");
      ("DI_ENDPOINT", "https://di.example"); ("DI_KEY", "di-key");
      ("AzureWebJobsStorage", "UseDevelopmentStorage=true");
      ("COSMOS_ENDPOINT", "https://cosmos.example"); ("COSMOS_KEY", "cosmos-key");
      ("COSMOS_DATABASE_NAME", "receipts"); ("COSMOS_CONTAINER_NAME", "items") ].

Definition sample_connection : Connection :=
  mkConnection (Ok (mkCursor (λ _ _, Ok (Some [PStr "alice"])))) true.

Definition sample_error : exn := Exception "OperationalError" "unreachable".

(** Every collaborator answers; the certificate file is in place. *)
Definition sample_world : World :=
  mkWorld sample_environ "/home/site/wwwroot/receipt_processor" (λ _, true)
    (λ _ _ _ _ _, Ok sample_connection)
    (λ _ _ _, Ok [])
    (λ content, Ok content)
    (λ _ _ _ _, Ok sample_receipt)
    (λ _ _ _ _, Ok (mkCosmosContainer (λ _, Ok tt)))
    "0b0e6d0c-0000-4000-8000-000000000001".

Definition with_environ (env : gmap string string) (w : World) : World :=
  mkWorld env (script_dir w) (path_exists w) (pymysql_connect w) (download_blob w)
    (grayscale_jpeg w) (begin_analyze_document w) (cosmos_container_client w) (uuid4 w).

Definition with_path_exists (f : string → bool) (w : World) : World :=
  mkWorld (environ w) (script_dir w) f (pymysql_connect w) (download_blob w)
    (grayscale_jpeg w) (begin_analyze_document w) (cosmos_container_client w) (uuid4 w).

Definition with_pymysql_connect
    (f : string → string → string → string → option string → result Connection)
    (w : World) : World :=
  mkWorld (environ w) (script_dir w) (path_exists w) f (download_blob w)
    (grayscale_jpeg w) (begin_analyze_document w) (cosmos_container_client w) (uuid4 w).

Definition with_download_blob
    (f : string → string → string → result (list Byte.byte)) (w : World) : World :=
  mkWorld (environ w) (script_dir w) (path_exists w) (pymysql_connect w) f
    (grayscale_jpeg w) (begin_analyze_document w) (cosmos_container_client w) (uuid4 w).

Definition with_analysis
    (f : string → string → string → list Byte.byte → result AnalyzeResult)
    (w : World) : World :=
  mkWorld (environ w) (script_dir w) (path_exists w) (pymysql_connect w) (download_blob w)
    (grayscale_jpeg w) f (cosmos_container_client w) (uuid4 w).

Definition with_cosmos
    (f : string → string → string → string → result CosmosContainer) (w : World) : World :=
  mkWorld (environ w) (script_dir w) (path_exists w) (pymysql_connect w) (download_blob w)
    (grayscale_jpeg w) (begin_analyze_document w) f (uuid4 w).

Definition blob_created_event (url : string) : EventGridEvent :=
  mkEvent "Microsoft.Storage.BlobCreated" {["url" := PStr url]}.

Definition sample_event : EventGridEvent := blob_created_event example_url.

Definition placeholder_url : string :=
  "https://acct.blob.core.windows.net/container/user123/.placeholder".

Definition short_url : string :=
  "https://acct.blob.core.windows.net/container/onlyonefile.jpg".


(** ** Reference definitions for the resolver and the failure paths *)

(** The four credentials line 39 requires. *)
Definition mysql_credentials (w : World) : list (option string) :=
  [ environ w !! "MYSQL_HOST"; environ w !! "MYSQL_USER";
    environ w !! "MYSQL_PASSWORD"; environ w !! "MYSQL_DATABASE" ].

(** The certificate path of lines 30-34. *)
Definition ssl_ca_path (w : World) : string :=
  default (os_path_join (script_dir w) "cert_combined_ca.pem")
    (environ w !! "DB_SSL_CA_PATH").

(** The certificate handed to [pymysql.connect], lines 44-55: the path
    when the file is there, none otherwise. *)
Definition ssl_options_of (w : World) : option string :=
  if PyStr.truthy (ssl_ca_path w) && path_exists w (ssl_ca_path w)
  then Some (ssl_ca_path w) else None.

(** The four settings line 319 requires. *)
Definition cosmos_settings (w : World) : list (option string) :=
  [ environ w !! "COSMOS_ENDPOINT"; environ w !! "COSMOS_KEY";
    environ w !! "COSMOS_DATABASE_NAME"; environ w !! "COSMOS_CONTAINER_NAME" ].

(** The two settings line 179 requires. *)
Definition di_settings (w : World) : list (option string) :=
  [ environ w !! "DI_ENDPOINT"; environ w !! "DI_KEY" ].

Definition is_fetch (e : io_event) : bool :=
  match e with
  | BlobDownload _ _ _ => true
  | _ => false
  end.

Definition is_analysis (e : io_event) : bool :=
  match e with
  | AnalyzeDocument _ _ _ _ => true
  | _ => false
  end.

(** The trace ends with the records [suffix]. *)
Definition ends_with (tr suffix : list io_event) : Prop :=
  ∃ t, tr = t ++ suffix.

(** The host sees the invocation fail: an exception left the handler. *)
Definition ends_in_failure {R} (o : outcome R) : Prop :=
  match o with
  | Raised _ => True
  | Returned _ => False
  end.

(** ** Sample worlds for the failure paths *)

(** The certificate path is given but the file is missing. *)
Definition world_no_certificate : World :=
  with_path_exists (λ _, false) sample_world.

(** The relational store cannot be reached. *)
Definition world_db_down : World :=
  with_pymysql_connect (λ _ _ _ _ _, Err sample_error) sample_world.

(** The relational store cannot be reached and one setting of the
    document database is missing. *)
Definition world_db_down_no_cosmos_key : World :=
  with_environ (delete "COSMOS_KEY" sample_environ) world_db_down.

Definition world_fetch_fails : World :=
  with_download_blob (λ _ _ _, Err sample_error) sample_world.

Definition world_analysis_fails : World :=
  with_analysis (λ _ _ _ _, Err sample_error) sample_world.

Definition world_write_fails : World :=
  with_cosmos (λ _ _ _ _, Ok (mkCosmosContainer (λ _, Err sample_error))) sample_world.



(** ** Reference definitions for the field mapping and the stages *)

(** The scalar top-level fields and the keys they are stored under
    (lines 226-236 and 278-293). *)
Definition top_level_fields : list (string * string) :=
  [ ("FechaTransaccion", "fechaTransaccion"); ("MontoTotal", "montoTotal");
    ("NombreComercio", "nombreComercio"); ("RIF-comercio", "rifComercio");
    ("FacturaNumero", "facturaNumero"); ("NombreRazon", "nombreRazon");
    ("RIF-CI", "rifCI"); ("MontoExento", "montoExento");
    ("MontoIVA", "montoIVA"); ("BaseImponible", "baseImponible") ].

(** The stages of the pipeline, in the order the handler reaches them;
    0 for a record that is no stage (a log record or a MySQL call made
    inside the resolver). *)
Definition stage_rank (e : io_event) : nat :=
  match e with
  | CallResolver _ => 1
  | BlobDownload _ _ _ => 2
  | AnalyzeDocument _ _ _ _ => 3
  | CosmosConnect _ _ _ _ => 4
  | CosmosCreateItem _ => 5
  | _ => 0
  end.

Definition is_stage (e : io_event) : bool := negb (Nat.eqb (stage_rank e) 0).

Definition stage_calls (tr : list io_event) : list io_event := List.filter is_stage tr.

(** * Properties *)

(** ** Strings *)

Section StringFacts.
Variable sep : ascii.

Lemma split_not_nil (s : string) : PyStr.split sep s ≠ [].
Proof.
  destruct s as [|c s]; simpl; [discriminate|].
  destruct (Ascii.eqb c sep); [discriminate|].
  destruct (PyStr.split sep s); discriminate.
Qed.





End StringFacts.

(** [endswith] is the suffix relation. *)
Lemma endswith_spec (s suffix : string) :
  PyStr.endswith s suffix = true ↔ ∃ prefix, s = prefix +:+ suffix.
Proof.
  split.
  - induction s as [|c s IH].
    + destruct suffix; simpl; [|discriminate].
      intros _. exists "". reflexivity.
    + cbn [PyStr.endswith].
      destruct (String.eqb (String c s) suffix) eqn:E.
      * intros _. apply String.eqb_eq in E. exists "". simpl. assumption.
      * intros H. destruct (IH H) as [p Hp]. exists (String c p).
        subst s. reflexivity.
  - intros [p ->]. induction p as [|c p IH].
    + change ("" +:+ suffix) with suffix.
      destruct suffix; cbn [PyStr.endswith]; rewrite ?String.eqb_refl; reflexivity.
    + change (String c p +:+ suffix) with (String c (p +:+ suffix)).
      cbn [PyStr.endswith].
      destruct (String.eqb (String c (p +:+ suffix)) suffix); [reflexivity|assumption].
Qed.

(** ** Blob path parsing *)


Lemma parse_owner_none (blob_path : string) :
  (length (PyStr.split "/" blob_path) < 3)%nat → parse_owner blob_path = None.
Proof.
  unfold parse_owner. intros H.
  destruct (3 <=? length (PyStr.split "/" blob_path))%nat eqn:Hlen; [|reflexivity].
  apply Nat.leb_le in Hlen. lia.
Qed.



(** ** Scalar extraction *)




(** The code's two-digit rendering is the zero-padded one. *)
Lemma pad2_zero_padded (n : nat) : pad2 n = string_of_list_ascii (zero_padded 2 n).
Proof. reflexivity. Qed.










(** ** Rounding and binary64 arithmetic *)

Section Rounding.
Local Open Scope Z_scope.


(** On a tie the even neighbour is taken. *)
Lemma round_half_even_tie (n : Z) (d : positive) :
  2 * Z.abs (round_half_even (n # d) * Z.pos d - n) = Z.pos d →
  Z.even (round_half_even (n # d)) = true.
Proof.
  unfold round_half_even. cbn [Qnum Qden].
  pose proof (Z.div_mod n (Z.pos d) ltac:(lia)) as Hdm.
  pose proof (Z.mod_pos_bound n (Z.pos d) ltac:(lia)) as Hb.
  set (fl := n / Z.pos d) in *. set (r := n mod Z.pos d) in *.
  clearbody fl r.
  destruct (2 * r <? Z.pos d) eqn:E1; [apply Z.ltb_lt in E1; nia|].
  apply Z.ltb_ge in E1.
  destruct (Z.pos d <? 2 * r) eqn:E2; [apply Z.ltb_lt in E2; nia|].
  destruct (Z.even fl) eqn:E3; [intros _; assumption|].
  intros _. rewrite Z.even_add, E3. reflexivity.
Qed.



End Rounding.

Section Binary64.
Local Open Scope Q_scope.



(** *** Powers of two *)









(** *** The rounding of a float operation *)








(** *** The sum, the mean and the score *)





End Binary64.

(** ** Field mapping *)

Lemma calls_app (t1 t2 : list io_event) : calls (t1 ++ t2) = calls t1 ++ calls t2.
Proof. apply List.filter_app. Qed.

Lemma dict_truthy_empty {A} : dict_truthy (∅ : gmap string A) = false.
Proof. reflexivity. Qed.

Lemma dict_truthy_insert {A} (k : string) (v : A) (d : gmap string A) :
  dict_truthy (<[k := v]> d) = true.
Proof.
  unfold dict_truthy. apply negb_true_iff, Nat.eqb_neq.
  intros H%map_size_empty_iff. exact (insert_non_empty _ _ _ H).
Qed.

Lemma dict_truthy_false {A} (d : gmap string A) : dict_truthy d = false → d = ∅.
Proof.
  unfold dict_truthy. intros H%negb_false_iff%Nat.eqb_eq.
  apply map_size_empty_iff, H.
Qed.

Lemma read_subfield_eq (vo : gmap string DocumentField) (key out_key : string)
    (d : gmap string pyval) (cs : list Q) :
  read_subfield vo key out_key (d, cs)
  = (match vo !! key with
     | Some f => <[out_key := get_field_value (Some f)]> d
     | None => d
     end,
     cs ++ option_list (vo !! key ≫= confidence)).
Proof.
  unfold read_subfield. destruct (vo !! key) as [f|]; cbn [mbind option_bind get_field_confidence].
  - destruct (confidence f); cbn [option_list]; rewrite ?app_nil_r; reflexivity.
  - cbn [option_list]. rewrite app_nil_r. reflexivity.
Qed.

(** One iteration of the item loop: the item is appended when it is
    included, its confidences are appended, and only log records are
    left in the trace. *)
Lemma omap_cons_option_list {A B} (f : A → option B) (x : A) (l : list A) :
  omap f (x :: l) = option_list (f x) ++ omap f l.
Proof. cbn [omap list_omap]. destruct (f x); reflexivity. Qed.

Lemma process_item_eq {R} (item : DocumentField)
    (items : list (gmap string pyval)) (confs : list Q) :
  ∃ t, process_item (R:=R) item (items, confs)
       = (t, Fall (items ++ (if item_included item then [line_item item] else []),
                   confs ++ subfield_confidences item))
       ∧ calls t = [].
Proof.
  unfold process_item, item_included, line_item, subfield_confidences, sub_field, item_keys.
  rewrite !omap_cons_option_list.
  cbn [existsb fst snd fold_left omap list_omap].
  destruct (value_object item) as [vo|]; cbn [mbind option_bind].
  - destruct (dict_truthy vo) eqn:Hvo.
    + rewrite !read_subfield_eq.
      destruct (vo !! "Description") as [f1|], (vo !! "Quantity") as [f2|],
               (vo !! "TotalPrice") as [f3|], (vo !! "UnitPrice") as [f4|].
      all: cbn [mbind option_bind option_list].
      all: rewrite ?dict_truthy_insert, ?dict_truthy_empty.
      all: rewrite ?app_nil_r, <- ?app_assoc.
      all: (eexists; split; [reflexivity|reflexivity]).
    + apply dict_truthy_false in Hvo. subst vo. rewrite !lookup_empty.
      cbn [mbind option_bind option_list]. rewrite ?app_nil_r.
      eexists. split; reflexivity.
  - cbn [option_list]. rewrite ?app_nil_r. eexists. split; reflexivity.
Qed.

(** The item loop refines the filter-and-map reading of the array. *)
Lemma for_each_process_item {R} (arr : list DocumentField) :
  ∀ (items : list (gmap string pyval)) (confs : list Q),
  ∃ t, for_each (process_item (R:=R)) arr (items, confs)
       = (t, Fall (items ++ map line_item (List.filter item_included arr),
                   confs ++ flat_map subfield_confidences arr))
       ∧ calls t = [].
Proof.
  induction arr as [|item arr IH]; intros items confs.
  - exists []. simpl. rewrite !app_nil_r. split; reflexivity.
  - destruct (process_item_eq (R:=R) item items confs) as (t1 & H1 & Hc1).
    destruct (IH (items ++ (if item_included item then [line_item item] else []))
                 (confs ++ subfield_confidences item)) as (t2 & H2 & Hc2).
    exists (t1 ++ t2). split.
    + cbn [for_each]. unfold mbind, M_mbind, M_bind. rewrite H1, H2.
      f_equal. f_equal. cbn [List.filter flat_map].
      destruct (item_included item); cbn [map]; rewrite <- !app_assoc; reflexivity.
    + rewrite calls_app, Hc1, Hc2. reflexivity.
Qed.

Lemma data_agree_refl (l : Locals) : data_agree_outside [] l l.
Proof. intros key _. reflexivity. Qed.

Lemma data_agree_trans (ks1 ks2 : list string) (l1 l2 l3 : Locals) :
  data_agree_outside ks1 l1 l2 → data_agree_outside ks2 l2 l3 →
  data_agree_outside (ks2 ++ ks1) l1 l3.
Proof.
  intros H1 H2 key [Hk2 Hk1]%Forall_app. rewrite (H2 key Hk2). apply H1, Hk1.
Qed.

Lemma set_receipt_data_agree (k : string) (v : docval) (l : Locals) :
  data_agree_outside [k] l (set_receipt_data k v l).
Proof.
  intros key Hk. inversion Hk; subst. apply lookup_insert_ne. assumption.
Qed.

Lemma copy_field_same (doc : AnalyzedDocument) (key out_key : string) (l : Locals) :
  same_variables l (copy_field doc key out_key l)
  ∧ data_agree_outside [out_key] l (copy_field doc key out_key l).
Proof.
  unfold copy_field. destruct (fields doc !! key).
  - split; [repeat split|apply set_receipt_data_agree].
  - split; [repeat split|]. intros k _. reflexivity.
Qed.

Lemma same_variables_trans (l1 l2 l3 : Locals) :
  same_variables l1 l2 → same_variables l2 l3 → same_variables l1 l3.
Proof.
  unfold same_variables. intros (? & ? & ? & ?) (? & ? & ? & ?).
  repeat split; congruence.
Qed.

Lemma copy_field_chain (doc : AnalyzedDocument) (key out_key : string)
    (ks : list string) (l l' : Locals) :
  same_variables l l' ∧ data_agree_outside ks l l' →
  same_variables l (copy_field doc key out_key l')
  ∧ data_agree_outside (out_key :: ks) l (copy_field doc key out_key l').
Proof.
  intros [Hv Hd]. destruct (copy_field_same doc key out_key l') as [Hv' Hd'].
  split; [eapply same_variables_trans; eassumption|].
  exact (data_agree_trans _ _ _ _ _ Hd Hd').
Qed.

Lemma read_fecha_eq {R} (doc : AnalyzedDocument) (l : Locals) :
  fecha_transaccion l = PNone →
  ∃ t l', read_fecha (R:=R) doc l = (t, Fall l') ∧ calls t = []
    ∧ fecha_transaccion l' = get_field_value (fields doc !! "FechaTransaccion")
    ∧ monto_total l' = monto_total l
    ∧ extracted_items l' = extracted_items l
    ∧ item_confidences l' = item_confidences l
    ∧ data_agree_outside ["fechaTransaccion"] l l'.
Proof.
  intros Hl. unfold read_fecha.
  destruct (fields doc !! "FechaTransaccion"); cbn; do 2 eexists;
    (split; [reflexivity|]); cbn; repeat split; try done.
  intros k Hk. inversion Hk; subst. apply lookup_insert_ne. assumption.
Qed.

Lemma read_monto_eq {R} (doc : AnalyzedDocument) (l : Locals) :
  monto_total l = PNone →
  ∃ t l', read_monto (R:=R) doc l = (t, Fall l') ∧ calls t = []
    ∧ fecha_transaccion l' = fecha_transaccion l
    ∧ monto_total l' = get_field_value (fields doc !! "MontoTotal")
    ∧ extracted_items l' = extracted_items l
    ∧ item_confidences l' = item_confidences l
    ∧ data_agree_outside ["montoTotal"] l l'.
Proof.
  intros Hl. unfold read_monto.
  destruct (fields doc !! "MontoTotal"); cbn; do 2 eexists;
    (split; [reflexivity|]); cbn; repeat split; try done.
  intros k Hk. inversion Hk; subst. apply lookup_insert_ne. assumption.
Qed.

Lemma read_items_eq {R} (doc : AnalyzedDocument) (l : Locals) :
  extracted_items l = [] → item_confidences l = [] →
  ∃ t l', read_items (R:=R) doc l = (t, Fall l') ∧ calls t = []
    ∧ fecha_transaccion l' = fecha_transaccion l
    ∧ monto_total l' = monto_total l
    ∧ extracted_items l' = map line_item (List.filter item_included (doc_items_array doc))
    ∧ item_confidences l' = flat_map subfield_confidences (doc_items_array doc)
    ∧ data_agree_outside ["items"] l l'
    ∧ (doc_items_array doc ≠ [] →
       full_receipt_data l' !! "items" = Some (DItems (extracted_items l'))).
Proof.
  intros Hi Hc. unfold read_items, doc_items_array.
  destruct (fields doc !! "Items") as [items_field|].
  2:{ cbn. do 2 eexists. split; [reflexivity|]. rewrite Hi, Hc. repeat split; done. }
  destruct (value_array items_field) as [[|x arr]|]; cbn [default].
  1,3: cbn; do 2 eexists; (split; [reflexivity|]); rewrite Hi, Hc; repeat split; done.
  destruct (for_each_process_item (R:=R) (x :: arr) (extracted_items l) (item_confidences l))
    as (t & Ht & Hcalls).
  unfold mbind, M_mbind, M_bind. rewrite Ht, Hi, Hc. cbn [app].
  do 2 eexists. split; [reflexivity|].
  cbn. rewrite app_nil_r. repeat split; try done.
  - intros k Hk. inversion Hk; subst. apply lookup_insert_ne. assumption.
  - intros _. apply lookup_insert_eq.
Qed.
Lemma read_document_eq {R} (doc : AnalyzedDocument) :
  ∃ t l, read_document (R:=R) doc initial_locals = (t, Fall l) ∧ calls t = []
    ∧ fecha_transaccion l = get_field_value (fields doc !! "FechaTransaccion")
    ∧ monto_total l = get_field_value (fields doc !! "MontoTotal")
    ∧ extracted_items l = map line_item (List.filter item_included (doc_items_array doc))
    ∧ item_confidences l = flat_map subfield_confidences (doc_items_array doc)
    ∧ data_agree_outside (tail receipt_keys) initial_locals l
    ∧ (doc_items_array doc ≠ [] →
       full_receipt_data l !! "items" = Some (DItems (extracted_items l))).
Proof.
  destruct (read_fecha_eq (R:=R) doc initial_locals eq_refl)
    as (t1 & l1 & E1 & C1 & F1 & M1 & I1 & K1 & D1).
  destruct (read_monto_eq (R:=R) doc l1 ltac:(rewrite M1; reflexivity))
    as (t2 & l2 & E2 & C2 & F2 & M2 & I2 & K2 & D2).
  destruct (read_items_eq (R:=R) doc l2 ltac:(rewrite I2, I1; reflexivity)
              ltac:(rewrite K2, K1; reflexivity))
    as (t3 & l3 & E3 & C3 & F3 & M3 & I3 & K3 & D3 & S3).
  unfold read_document, mbind, M_mbind, M_bind. rewrite E1, E2, E3.
  unfold mret, M_mret, M_ret.
  match goal with
  | |- context [Fall ?chain] => set (l4 := chain)
  end.
  eassert (same_variables l3 l4 ∧ data_agree_outside _ l3 l4) as [(F4 & M4 & I4 & K4) D4].
  { subst l4. repeat apply copy_field_chain.
    split; [repeat split|apply data_agree_refl]. }
  clearbody l4.
  eexists _, l4. split; [reflexivity|].
  split; [rewrite !calls_app, C1, C2, C3; reflexivity|].
  split; [congruence|]. split; [congruence|]. split; [congruence|]. split; [congruence|].
  split.
  - exact (data_agree_trans _ _ _ _ _
             (data_agree_trans _ _ _ _ _ (data_agree_trans _ _ _ _ _ D1 D2) D3) D4).
  - intros Hne. rewrite I4. rewrite <- (S3 Hne). apply D4.
    repeat constructor; discriminate.
Qed.

Lemma score_items_eq {R} (l : Locals) :
  ∃ t l', score_items (R:=R) l = (t, Fall l') ∧ calls t = []
    ∧ same_variables l l'
    ∧ data_agree_outside ["itemsConfidenceScore"] l l'
    ∧ full_receipt_data l' !! "itemsConfidenceScore"
      = Some (DScalar (confidence_score (item_confidences l))).
Proof.
  unfold score_items, confidence_score.
  destruct (item_confidences l) as [|c cs] eqn:Hc.
  - cbn. do 2 eexists. split; [reflexivity|]. split; [reflexivity|].
    split; [repeat split|]. split; [apply set_receipt_data_agree|].
    apply lookup_insert_eq.
  - do 2 eexists. split; [reflexivity|]. split; [reflexivity|].
    split; [repeat split|]. split; [apply set_receipt_data_agree|].
    cbn [set_receipt_data full_receipt_data]. rewrite lookup_insert_eq.
    reflexivity.
Qed.

(** The mapping of an analysis result always runs to its end, leaves
    only log records, and assigns the locals as the reference
    definitions say. *)
Lemma extract_fields_spec {R} (r : AnalyzeResult) :
  ∃ t l, extract_fields (R:=R) r = (t, Fall l) ∧ calls t = []
    ∧ fecha_transaccion l = extracted_value r "FechaTransaccion"
    ∧ monto_total l = extracted_value r "MontoTotal"
    ∧ extracted_items l = map line_item (List.filter item_included (items_array r))
    ∧ item_confidences l = collected_confidences r
    ∧ full_receipt_data l !! "itemsConfidenceScore"
      = Some (DScalar (confidence_score (collected_confidences r)))
    ∧ (items_array r ≠ [] →
       full_receipt_data l !! "items" = Some (DItems (extracted_items l)))
    ∧ data_agree_outside receipt_keys initial_locals l.
Proof.
  assert (∃ t l, read_documents (R:=R) r = (t, Fall l) ∧ calls t = []
            ∧ fecha_transaccion l = extracted_value r "FechaTransaccion"
            ∧ monto_total l = extracted_value r "MontoTotal"
            ∧ extracted_items l = map line_item (List.filter item_included (items_array r))
            ∧ item_confidences l = collected_confidences r
            ∧ data_agree_outside (tail receipt_keys) initial_locals l
            ∧ (items_array r ≠ [] →
               full_receipt_data l !! "items" = Some (DItems (extracted_items l))))
    as (t1 & l1 & E1 & C1 & F1 & M1 & I1 & K1 & D1 & S1).
  { unfold read_documents, extracted_value, collected_confidences, items_array.
    destruct (documents r) as [[|doc rest]|].
    1,3: exists [Log WARNING "No documents found in receipt_result." None], initial_locals;
      repeat split; try done; intros key _; reflexivity.
    apply read_document_eq. }
  destruct (score_items_eq (R:=R) l1) as (t2 & l2 & E2 & C2 & (F2 & M2 & I2 & K2) & D2 & S2).
  unfold extract_fields, mbind, M_mbind, M_bind. rewrite E1, E2.
  eexists _, l2. split; [reflexivity|].
  split; [rewrite calls_app, C1, C2; reflexivity|].
  split; [congruence|]. split; [congruence|]. split; [congruence|]. split; [congruence|].
  split; [rewrite S2, K1; reflexivity|].
  split.
  - intros Hne. rewrite I2, <- (S1 Hne). apply D2. repeat constructor; discriminate.
  - exact (data_agree_trans _ _ _ _ _ D1 D2).
Qed.

(** ** Line items and the confidence score *)

(** The line item holds, under each of its four keys, the scalar of the
    sub-field when that sub-field was extracted, and nothing else. *)
Lemma line_item_lookup (item : DocumentField) (key out_key : string) :
  (key, out_key) ∈ item_keys →
  line_item item !! out_key
  = (λ f, get_field_value (Some f)) <$> sub_field item key.
Proof.
  unfold line_item, item_keys. cbn [fold_left fst snd].
  intros Hin. repeat (apply elem_of_cons in Hin as [[= -> ->]|Hin]).
  5: { apply elem_of_nil in Hin. contradiction. }
  all: destruct (sub_field item "Description"), (sub_field item "Quantity"),
         (sub_field item "TotalPrice"), (sub_field item "UnitPrice").
  all: cbn [fmap option_fmap option_map].
  all: repeat (first [ rewrite lookup_insert_eq | rewrite lookup_insert_ne by discriminate ]).
  all: rewrite ?lookup_empty; reflexivity.
Qed.

Lemma item_included_iff (item : DocumentField) :
  item_included item = true
  ↔ ∃ key, key ∈ ["Description"; "Quantity"; "TotalPrice"; "UnitPrice"]
           ∧ is_Some (sub_field item key).
Proof.
  unfold item_included, item_keys. cbn [existsb fst].
  rewrite !orb_true_iff, !bool_decide_eq_true. split.
  - intros [H|[H|[H|[H|H]]]]; [..|discriminate]; eexists; (split; [|exact H]);
      repeat constructor.
  - intros (key & Hin & Hs).
    repeat (apply elem_of_cons in Hin as [->|Hin]); [tauto..|].
    apply elem_of_nil in Hin. contradiction.
Qed.

(** C9. Line-item inclusion. The mapping of an analysis result always
    completes, and the items it extracts are the line items of exactly
    those sub-records of the Items array, in the order of the array, of
    which at least one of the sub-fields Description, Quantity,
    TotalPrice, UnitPrice was extracted (is present in the sub-record);
    this list is what the record holds under "items". *)
Theorem line_item_inclusion (r : AnalyzeResult) :
  ∃ t l,
    extract_fields (R:=option HttpResponse) r = (t, Fall l)
    ∧ extracted_items l = map line_item (List.filter item_included (items_array r))
    ∧ (items_array r ≠ [] →
       full_receipt_data l !! "items" = Some (DItems (extracted_items l)))
    ∧ (∀ d, d ∈ extracted_items l
            ↔ ∃ item, item ∈ items_array r
                      ∧ (∃ key, key ∈ ["Description"; "Quantity"; "TotalPrice"; "UnitPrice"]
                                ∧ is_Some (sub_field item key))
                      ∧ d = line_item item).
Proof.
  destruct (extract_fields_spec (R:=option HttpResponse) r)
    as (t & l & E & _ & _ & _ & Hitems & _ & _ & Hkey & _).
  exists t, l. repeat split; try assumption.
  - rewrite Hitems. intros (item & -> & Hin)%list_elem_of_fmap.
    apply list_elem_of_In, List.filter_In in Hin as [Hin Hinc].
    exists item. repeat split; [apply list_elem_of_In, Hin|].
    apply item_included_iff, Hinc.
  - intros (item & Hin & Hsub & ->). rewrite Hitems.
    apply list_elem_of_fmap. exists item. split; [reflexivity|].
    apply list_elem_of_In, List.filter_In. split; [apply list_elem_of_In, Hin|].
    apply item_included_iff, Hsub.
Qed.






Example sample_receipt_confidences :
  collected_confidences sample_receipt
  = [double 0x1.ccccccccccccdp-1; double 0x1.999999999999ap-1;
     double 0x1.e666666666666p-1].
Proof. vm_compute. reflexivity. Qed.

(** The model agrees with the machine's binary64 arithmetic: on the
    decimal literals (0.9 and 0.7983 are the nearest binary64 numbers),
    and on the sum and the quotient of both examples. *)
Example binary64_agreement :
  b64 (9 # 10) = double 0x1.ccccccccccccdp-1
  ∧ b64 (7983 # 10000) = double 0x1.98bac710cb296p-1
  ∧ float_div
      (py_sum [double 0x1.ccccccccccccdp-1; double 0x1.999999999999ap-1;
               double 0x1.e666666666666p-1]) (float_of_nat 3)
    = double binary64_example_mean
  ∧ float_div (py_sum tie_confidences) (float_of_nat 4) = double binary64_tie_mean.
Proof. vm_compute. repeat split. Qed.

(** The binary64 mean of the specification's example is not the exact
    mean, yet it rounds to the same four places. *)
Example binary64_example_score :
  ¬ (double binary64_example_mean
     == arithmetic_mean [double 0x1.ccccccccccccdp-1; double 0x1.999999999999ap-1;
                         double 0x1.e666666666666p-1])%Q
  ∧ py_round (double binary64_example_mean) 4 = double 0x1.c43fe5c91d14ep-1
  ∧ rounded_mean [double 0x1.ccccccccccccdp-1; double 0x1.999999999999ap-1;
                  double 0x1.e666666666666p-1] = (8833 # 10000)%Q.
Proof.
  split; [|split].
  - intros H. vm_compute in H. discriminate H.
  - vm_compute. reflexivity.
  - vm_compute. reflexivity.
Qed.

(** An item whose only sub-field was extracted without any populated
    value is still included, with a null entry. *)
Example line_item_null_entry :
  item_included (object_field {["Description" := empty_field]}) = true
  ∧ line_item (object_field {["Description" := empty_field]})
    = {["description" := PNone]}.
Proof. split; vm_compute; reflexivity. Qed.

(** ** Symbolic execution of the handler *)

Ltac monad_unfold :=
  unfold mbind, mret, M_mbind, M_mret, M_bind, M_ret, log, log_exc, emit, return_, raise,
    lift, try_except, try_finally, call, run in *.

(** The innermost scrutinee of the matches of a term. *)
Ltac head_scrutinee t :=
  lazymatch t with
  | context [match ?x with _ => _ end] =>
      lazymatch x with
      | context [match _ with _ => _ end] => head_scrutinee x
      | _ => x
      end
  end.

(** One step: the innermost scrutinee is rewritten with a hypothesis that
    gives its value, or else split by cases. *)
Ltac case_step :=
  lazymatch goal with
  | |- ?G =>
      let x := head_scrutinee G in
      first
        [ match goal with
          | H : x = _ |- _ => rewrite H
          end
        | tryif is_var x then destruct x else destruct x eqn:? ]
  end;
  cbn beta iota zeta.

Lemma writes_app (t1 t2 : list io_event) : writes (t1 ++ t2) = writes t1 ++ writes t2.
Proof.
  induction t1 as [|e t1 IH]; [reflexivity|].
  destruct e; cbn [app writes]; rewrite ?IH; reflexivity.
Qed.

Lemma writes_resolver (t : list io_event) :
  Forall (λ e, resolver_event e = true) t → writes t = [].
Proof.
  induction 1 as [|e t He _ IH]; [reflexivity|].
  destruct e; try discriminate; cbn [writes]; assumption.
Qed.

Lemma writes_calls (t : list io_event) : writes (calls t) = writes t.
Proof.
  induction t as [|e t IH]; [reflexivity|].
  destruct e; cbn; fold (calls t); rewrite ?IH; reflexivity.
Qed.

Lemma writes_logs (t : list io_event) : calls t = [] → writes t = [].
Proof. intros H. rewrite <- writes_calls, H. reflexivity. Qed.

(** ** The username resolver *)

(** The resolver always returns: no path lets an exception out, and its
    trace holds log records and MySQL calls only. *)
Lemma get_username_from_db_returns (w : World) (user_id : string) :
  ∃ t v, get_username_from_db w user_id = (t, Return v)
         ∧ Forall (λ e, resolver_event e = true) t.
Proof.
  unfold get_username_from_db, try_block, connect_phase, query_phase, except_clause,
    finally_clause.
  monad_unfold. cbn beta iota zeta.
  repeat case_step.
  all: do 2 eexists; split; [reflexivity|]; repeat constructor.
Qed.

Ltac exec_step :=
  first
    [ match goal with
      | |- context [get_username_from_db ?w ?u] =>
          let t := fresh "t_res" in
          let v := fresh "username" in
          let E := fresh "Eres" in
          let H := fresh "Hres" in
          destruct (get_username_from_db_returns w u) as (t & v & E & H);
          rewrite E; cbn beta iota zeta
      end
    | match goal with
      | |- context [@extract_fields ?R ?r] =>
          let t := fresh "t_ext" in
          let l := fresh "l" in
          let E := fresh "Eext" in
          destruct (extract_fields_spec (R:=R) r)
            as (t & l & E & ?Hcalls & ?Hfecha & ?Hmonto & ?Hitems & ?Hconfs
                & ?Hscore & ?Hitemskey & ?Hkeys);
          rewrite E; cbn beta iota zeta
      end
    | case_step ].

Ltac exec_handler :=
  unfold invoke, func701, blob_created, process_blob, extraction_block, persist;
  monad_unfold; cbn beta iota zeta;
  repeat exec_step.

(** ** Early exits *)

Lemma M_bind_ret_l {R A B} (a : A) (f : A → M R B) : (mret a ≫= f) = f a.
Proof.
  unfold mbind, mret, M_mbind, M_mret, M_bind, M_ret.
  destruct (f a) as [t c]. reflexivity.
Qed.

Lemma func701_blob_created (w : World) (event : EventGridEvent)
    (url container_name blob_path : string) :
  event_type event = "Microsoft.Storage.BlobCreated" →
  event_json event !! "url" = Some (PStr url) →
  parse_blob_url url = Some (container_name, blob_path) →
  func701 w event = (log INFO "--- FUNCTION STARTED ---";; process_blob w url).
Proof.
  intros Hty Hurl Hparse. unfold func701, blob_created. rewrite Hty, Hurl.
  destruct url as [|c url]; [discriminate Hparse|].
  change ("Microsoft.Storage.BlobCreated" =? "Microsoft.EventGrid.SubscriptionValidationEvent")
    with false.
  change ("Microsoft.Storage.BlobCreated" =? "Microsoft.Storage.BlobCreated") with true.
  cbn iota. rewrite M_bind_ret_l. reflexivity.
Qed.

(** C6. Placeholder skip. For a BlobCreated event whose parsed object
    path ends in "/.placeholder", whatever the container and the prefix,
    the handler returns normally and its trace holds log records only: no
    username resolver, no blob fetch, no extraction, no document write. *)
Theorem placeholder_skip (w : World) (event : EventGridEvent)
    (url container_name prefix : string) :
  event_type event = "Microsoft.Storage.BlobCreated" →
  event_json event !! "url" = Some (PStr url) →
  parse_blob_url url = Some (container_name, prefix +:+ "/.placeholder") →
  calls (invoke w event).1 = [] ∧ (invoke w event).2 = Returned None.
Proof.
  intros Hty Hurl Hparse. unfold invoke.
  rewrite (func701_blob_created _ _ _ _ _ Hty Hurl Hparse).
  assert (is_placeholder (prefix +:+ "/.placeholder") = true) as Hph
    by (apply endswith_spec; eexists; reflexivity).
  unfold process_blob. monad_unfold. cbn beta iota zeta.
  repeat case_step. split; reflexivity.
Qed.

Lemma placeholder_skip_witness :
  calls (invoke sample_world (blob_created_event placeholder_url)).1 = []
  ∧ (invoke sample_world (blob_created_event placeholder_url)).2 = Returned None.
Proof.
  apply (placeholder_skip sample_world (blob_created_event placeholder_url)
           placeholder_url "container" "user123"); reflexivity.
Defined.

(** C7. Malformed-path rejection. For a BlobCreated event whose object
    path, split on '/', has fewer than three segments, the handler returns
    normally and its trace holds log records only: no username lookup, no
    blob fetch, no extraction, no write. *)
Theorem malformed_path_rejection (w : World) (event : EventGridEvent)
    (url container_name blob_path : string) :
  event_type event = "Microsoft.Storage.BlobCreated" →
  event_json event !! "url" = Some (PStr url) →
  parse_blob_url url = Some (container_name, blob_path) →
  (length (PyStr.split "/" blob_path) < 3)%nat →
  calls (invoke w event).1 = [] ∧ (invoke w event).2 = Returned None.
Proof.
  intros Hty Hurl Hparse Hlen. unfold invoke.
  rewrite (func701_blob_created _ _ _ _ _ Hty Hurl Hparse).
  pose proof (parse_owner_none _ Hlen) as Hown.
  unfold process_blob. monad_unfold. cbn beta iota zeta.
  repeat case_step; split; reflexivity.
Qed.

Lemma malformed_path_rejection_witness :
  calls (invoke sample_world (blob_created_event short_url)).1 = []
  ∧ (invoke sample_world (blob_created_event short_url)).2 = Returned None.
Proof.
  apply (malformed_path_rejection sample_world (blob_created_event short_url)
           short_url "container" "onlyonefile.jpg"); [reflexivity..|].
  vm_compute. lia.
Defined.

(** ** Required fields *)



(** ** The persisted document *)

(** The fixed entries of the document are not shadowed by the receipt
    data, and every entry of the receipt data is in the document. *)
Lemma final_cosmos_document_lookup (receipt_document_id user_id : string)
    (username : pyval) (random_subdirectory blob_url : string) (l : Locals) :
  data_agree_outside receipt_keys initial_locals l →
  let doc := final_cosmos_document receipt_document_id user_id username
               random_subdirectory blob_url (full_receipt_data l) in
  doc !! "id" = Some (DScalar (PStr receipt_document_id))
  ∧ doc !! "userId" = Some (DScalar (PStr user_id))
  ∧ doc !! "id_usuario" = Some (DScalar (PStr user_id))
  ∧ doc !! "username" = Some (DScalar username)
  ∧ doc !! "directorio" = Some (DScalar (PStr random_subdirectory))
  ∧ doc !! "blobURL" = Some (DScalar (PStr blob_url))
  ∧ ∀ key v, full_receipt_data l !! key = Some v → doc !! key = Some v.
Proof.
  intros Hkeys doc. subst doc. unfold final_cosmos_document.
  assert (∀ key, Forall (λ k, k ≠ key) receipt_keys →
                 full_receipt_data l !! key = None) as Hnone.
  { intros key Hk. rewrite (Hkeys key Hk). reflexivity. }
  repeat split.
  1-6: rewrite lookup_union_r by (apply Hnone; repeat constructor; discriminate);
       repeat (first [ rewrite lookup_insert_eq | rewrite lookup_insert_ne by discriminate ]);
       reflexivity.
  intros key v Hv. apply lookup_union_Some_l, Hv.
Qed.






(** ** Resolver resilience *)

(** The resolver gives a non-null value only when the credentials are
    complete, the connection, the cursor and the query succeed, and the
    query yields a row: that value is the row's first column. *)
Lemma resolver_non_null (w : World) (user_id : string) (t : list io_event) (v : pyval) :
  get_username_from_db w user_id = (t, Return v) →
  v ≠ PNone →
  forallb PyStr.truthy_opt (mysql_credentials w) = true
  ∧ ∃ cnx cursor row,
      pymysql_connect w (default "" (environ w !! "MYSQL_USER"))
        (default "" (environ w !! "MYSQL_PASSWORD"))
        (default "" (environ w !! "MYSQL_HOST"))
        (default "" (environ w !! "MYSQL_DATABASE")) (ssl_options_of w) = Ok cnx
      ∧ cnx_cursor cnx = Ok cursor
      ∧ run_query cursor "SELECT username FROM users WHERE id = %s" user_id
        = Ok (Some (v :: row)).
Proof.
  unfold mysql_credentials, ssl_options_of, ssl_ca_path.
  unfold get_username_from_db, try_block, connect_phase, query_phase, except_clause,
    finally_clause.
  monad_unfold. cbn beta iota zeta.
  repeat case_step.
  all: intros [= <- <-] Hv; try congruence.
  all: split; [apply negb_false_iff; assumption|].
  all: eauto 10.
Qed.

Lemma null_username_still_writes (w : World) (event : EventGridEvent)
    (url container_name blob_path user_id random_subdirectory connection_string : string)
    (t_res : list io_event) (content : list Byte.byte) (r : AnalyzeResult)
    (container : CosmosContainer) :
  event_type event = "Microsoft.Storage.BlobCreated" →
  event_json event !! "url" = Some (PStr url) →
  parse_blob_url url = Some (container_name, blob_path) →
  is_placeholder blob_path = false →
  parse_owner blob_path = Some (user_id, random_subdirectory) →
  get_username_from_db w user_id = (t_res, Return PNone) →
  forallb PyStr.truthy_opt (di_settings w) = true →
  environ w !! "AzureWebJobsStorage" = Some connection_string →
  download_blob w connection_string container_name blob_path = Ok content →
  begin_analyze_document w (default "" (environ w !! "DI_ENDPOINT"))
    (default "" (environ w !! "DI_KEY")) "TrainingHard1"
    (normalized_image w content) = Ok r →
  extracted_value r "FechaTransaccion" ≠ PNone →
  extracted_value r "MontoTotal" ≠ PNone →
  forallb PyStr.truthy_opt (cosmos_settings w) = true →
  cosmos_container_client w (default "" (environ w !! "COSMOS_ENDPOINT"))
    (default "" (environ w !! "COSMOS_KEY"))
    (default "" (environ w !! "COSMOS_DATABASE_NAME"))
    (default "" (environ w !! "COSMOS_CONTAINER_NAME")) = Ok container →
  ∃ doc, writes (invoke w event).1 = [doc]
         ∧ doc !! "username" = Some (DScalar PNone)
         ∧ doc !! "userId" = Some (DScalar (PStr user_id)).
Proof.
  intros Hty Hurl Hparse Hph Hown Hres Hdi Hcs Hdl Han Hfe Hmo Hco Hcont.
  unfold invoke. rewrite (func701_blob_created _ _ _ _ _ Hty Hurl Hparse).
  destruct (extract_fields_spec (R:=option HttpResponse) r)
    as (t_ext & l & Eext & Hcalls & Hfecha & Hmonto & _ & _ & _ & _ & Hkeys).
  assert (is_none (fecha_transaccion l) || is_none (monto_total l) = false) as Hreq.
  { rewrite Hfecha, Hmonto.
    destruct (extracted_value r "FechaTransaccion"), (extracted_value r "MontoTotal");
      congruence || reflexivity. }
  apply negb_false_iff in Hdi, Hco. unfold di_settings in Hdi. unfold cosmos_settings in Hco.
  unfold normalized_image in Han.
  assert (Forall (λ e, resolver_event e = true) t_res) as Hrt.
  { destruct (get_username_from_db_returns w user_id) as (t' & v' & E' & Ht').
    congruence. }
  unfold process_blob, extraction_block, persist. monad_unfold. cbn beta iota zeta.
  destruct (grayscale_jpeg w content) eqn:Himg.
  all: repeat case_step.
  all: try discriminate.
  all: cbn [fst]; rewrite !writes_app; cbn [writes app];
    rewrite ?(writes_resolver _ Hrt), ?(writes_logs _ Hcalls); cbn [app].
  all: eexists; split; [reflexivity|].
  all: destruct (final_cosmos_document_lookup (uuid4 w) user_id PNone
                   random_subdirectory url l Hkeys) as (_ & Hu & _ & Hn & _).
  all: split; assumption.
Qed.

(** C5 (as the code has it). The username resolver never lets an error
    out: it always returns. It returns null in every failure mode but one
    (incomplete credentials, a failing connection, cursor or query, no row
    for the user): a non-null value comes only from a row of a successful
    query. A missing certificate file is not such a mode: the connection
    is then attempted without a certificate. When the resolver returns
    null the handler goes on and, provided the extraction settings and
    the storage setting are present, the blob fetch and the extraction
    succeed, both required fields are non-null, the document database
    settings are complete and its container client can be built, it hands
    one document to the document database, with a null username. *)
Theorem resolver_resilience :
  (∀ w user_id, ∃ t v, get_username_from_db w user_id = (t, Return v))
  ∧ (∀ w user_id t v,
       get_username_from_db w user_id = (t, Return v) →
       v ≠ PNone →
       forallb PyStr.truthy_opt (mysql_credentials w) = true
       ∧ ∃ cnx cursor row,
           pymysql_connect w (default "" (environ w !! "MYSQL_USER"))
             (default "" (environ w !! "MYSQL_PASSWORD"))
             (default "" (environ w !! "MYSQL_HOST"))
             (default "" (environ w !! "MYSQL_DATABASE")) (ssl_options_of w) = Ok cnx
           ∧ cnx_cursor cnx = Ok cursor
           ∧ run_query cursor "SELECT username FROM users WHERE id = %s" user_id
             = Ok (Some (v :: row)))
  ∧ (∀ w event url container_name blob_path user_id random_subdirectory
       connection_string t_res content r container,
       event_type event = "Microsoft.Storage.BlobCreated" →
       event_json event !! "url" = Some (PStr url) →
       parse_blob_url url = Some (container_name, blob_path) →
       is_placeholder blob_path = false →
       parse_owner blob_path = Some (user_id, random_subdirectory) →
       get_username_from_db w user_id = (t_res, Return PNone) →
       forallb PyStr.truthy_opt (di_settings w) = true →
       environ w !! "AzureWebJobsStorage" = Some connection_string →
       download_blob w connection_string container_name blob_path = Ok content →
       begin_analyze_document w (default "" (environ w !! "DI_ENDPOINT"))
         (default "" (environ w !! "DI_KEY")) "TrainingHard1"
         (normalized_image w content) = Ok r →
       extracted_value r "FechaTransaccion" ≠ PNone →
       extracted_value r "MontoTotal" ≠ PNone →
       forallb PyStr.truthy_opt (cosmos_settings w) = true →
       cosmos_container_client w (default "" (environ w !! "COSMOS_ENDPOINT"))
         (default "" (environ w !! "COSMOS_KEY"))
         (default "" (environ w !! "COSMOS_DATABASE_NAME"))
         (default "" (environ w !! "COSMOS_CONTAINER_NAME")) = Ok container →
       ∃ doc, writes (invoke w event).1 = [doc]
              ∧ doc !! "username" = Some (DScalar PNone)
              ∧ doc !! "userId" = Some (DScalar (PStr user_id))).
Proof.
  split; [|split].
  - intros w user_id.
    destruct (get_username_from_db_returns w user_id) as (t & v & E & _). eauto.
  - apply resolver_non_null.
  - intros. eapply null_username_still_writes; eassumption.
Qed.

Lemma resolver_resilience_witness :
  ∃ doc, writes (invoke world_db_down sample_event).1 = [doc]
         ∧ doc !! "username" = Some (DScalar PNone)
         ∧ doc !! "userId" = Some (DScalar (PStr "user123")).
Proof.
  apply (proj2 (proj2 resolver_resilience) world_db_down sample_event example_url
           "container" "user123/subdirABC/receipt.jpg" "user123" "subdirABC"
           "UseDevelopmentStorage=true"
           (get_username_from_db world_db_down "user123").1 [] sample_receipt
           (mkCosmosContainer (λ _, Ok tt)));
    try reflexivity; vm_compute; congruence.
Defined.

(** C5 as stated fails twice. With the certificate path given and the
    file missing the resolver still returns the stored name, not null.
    And with a null username, a successful extraction and both required
    fields present, nothing is written when a setting of the document
    database is missing. *)
Lemma resolver_resilience_counterexample :
  (PyStr.truthy (ssl_ca_path world_no_certificate) = true
   ∧ path_exists world_no_certificate (ssl_ca_path world_no_certificate) = false
   ∧ (get_username_from_db world_no_certificate "user123").2 = Return (PStr "alice"))
  ∧ ((get_username_from_db world_db_down_no_cosmos_key "user123").2 = Return PNone
     ∧ begin_analyze_document world_db_down_no_cosmos_key "https://di.example" "di-key"
         "TrainingHard1" [] = Ok sample_receipt
     ∧ extracted_value sample_receipt "FechaTransaccion" = PStr "2024-03-07"
     ∧ extracted_value sample_receipt "MontoTotal" = PNum (1250 # 100)
     ∧ In (AnalyzeDocument "https://di.example" "di-key" "TrainingHard1" [])
          (invoke world_db_down_no_cosmos_key sample_event).1
     ∧ writes (invoke world_db_down_no_cosmos_key sample_event).1 = []).
Proof.
  vm_compute. repeat split; try reflexivity.
  repeat first [left; reflexivity | right].
Qed.


(** ** Failure paths *)

Lemma in_resolver_trace (t : list io_event) (e : io_event) :
  Forall (λ e, resolver_event e = true) t → In e t → resolver_event e = true.
Proof. intros Hall Hin. rewrite Forall_forall in Hall. apply Hall, list_elem_of_In, Hin. Qed.

Lemma in_log_trace (t : list io_event) (e : io_event) :
  calls t = [] → In e t → is_call e = false.
Proof.
  intros Hc Hin. destruct (is_call e) eqn:E; [|reflexivity].
  assert (In e (calls t)) as H by (apply List.filter_In; auto).
  rewrite Hc in H. destruct H.
Qed.

Lemma filter_resolver_trace (p : io_event → bool) (t : list io_event) :
  (∀ e, resolver_event e = true → p e = false) →
  Forall (λ e, resolver_event e = true) t → List.filter p t = [].
Proof.
  intros Hp. induction 1 as [|e t He _ IH]; [reflexivity|].
  cbn [List.filter]. rewrite (Hp e He). assumption.
Qed.

Lemma filter_log_trace (p : io_event → bool) (t : list io_event) :
  (∀ e, is_call e = false → p e = false) →
  calls t = [] → List.filter p t = [].
Proof.
  intros Hp Hc. induction t as [|e t IH]; [reflexivity|].
  unfold calls in Hc. cbn [List.filter] in *.
  destruct (is_call e) eqn:E; [discriminate|].
  rewrite (Hp e E). apply IH, Hc.
Qed.

Lemma fetch_not_resolver e : resolver_event e = true → is_fetch e = false.
Proof. destruct e; (reflexivity || discriminate). Qed.
Lemma analysis_not_resolver e : resolver_event e = true → is_analysis e = false.
Proof. destruct e; (reflexivity || discriminate). Qed.
Lemma fetch_not_log e : is_call e = false → is_fetch e = false.
Proof. destruct e; (reflexivity || discriminate). Qed.
Lemma analysis_not_log e : is_call e = false → is_analysis e = false.
Proof. destruct e; (reflexivity || discriminate). Qed.

Lemma ends_with_refl (t : list io_event) : ends_with t t.
Proof. exists []. reflexivity. Qed.

Lemma ends_with_cons (e : io_event) (t s : list io_event) :
  ends_with t s → ends_with (e :: t) s.
Proof. intros [p ->]. exists (e :: p). reflexivity. Qed.

Lemma ends_with_app (t1 t2 s : list io_event) :
  ends_with t2 s → ends_with (t1 ++ t2) s.
Proof. intros [p ->]. exists (t1 ++ p). apply app_assoc. Qed.

(** Normal form of a trace: right-nested, no empty segment. *)
Ltac normalize_trace :=
  cbn [fst snd]; rewrite <- ?app_assoc; cbn [app].

Ltac solve_ends_with :=
  repeat first [ apply ends_with_refl | apply ends_with_cons | apply ends_with_app ].

Ltac simplify_filters :=
  repeat
    (progress
       (rewrite ?List.filter_app, ?writes_app;
        rewrite ?(filter_resolver_trace is_fetch _ fetch_not_resolver ltac:(eassumption)),
          ?(filter_resolver_trace is_analysis _ analysis_not_resolver ltac:(eassumption)),
          ?(filter_log_trace is_fetch _ fetch_not_log ltac:(eassumption)),
          ?(filter_log_trace is_analysis _ analysis_not_log ltac:(eassumption)),
          ?(writes_resolver _ ltac:(eassumption)), ?(writes_logs _ ltac:(eassumption));
        cbn [List.filter is_fetch is_analysis writes app length])).

(** Case analysis of a membership in a concrete trace. *)
Ltac split_in H :=
  cbn [fst] in H;
  repeat (progress (rewrite ?in_app_iff in H; cbn [In] in H));
  repeat match type of H with
    | _ ∨ _ => destruct H as [H|H]
    end;
  first
    [ contradiction
    | discriminate H
    | exfalso;
      match goal with
      | Hr : Forall (λ e, resolver_event e = true) ?t |- _ =>
          let H' := fresh in
          pose proof (in_resolver_trace _ _ Hr H) as H'; discriminate H'
      end
    | exfalso;
      match goal with
      | Hc : calls ?t = [] |- _ =>
          let H' := fresh in
          pose proof (in_log_trace _ _ Hc H) as H'; discriminate H'
      end
    | idtac ].

Ltac fetch_failure_case :=
  let Hin := fresh "Hin" in
  let Herr := fresh "Herr" in
  intros ? ? ? err Hin Herr; split_in Hin;
  injection Hin as <- <- <-;
  try congruence;
  match goal with
  | H : download_blob _ _ _ _ = Err ?e0 |- _ => assert (e0 = err) as -> by congruence
  end;
  (split; [eexists; normalize_trace; solve_ends_with|]);
  (split; [reflexivity|]);
  simplify_filters; split; reflexivity.

Ltac analysis_failure_case :=
  let Hin := fresh "Hin" in
  let Herr := fresh "Herr" in
  intros ? ? ? ? err Hin Herr; split_in Hin;
  injection Hin as <- <- <- <-;
  try congruence;
  match goal with
  | H : begin_analyze_document _ _ _ _ _ = Err ?e0 |- _ =>
      assert (e0 = err) as -> by congruence
  end;
  (split; [eexists; normalize_trace; solve_ends_with|]);
  (split; [reflexivity|]);
  simplify_filters; reflexivity.

Ltac write_failure_case :=
  let Hconn := fresh "Hconn" in
  let Hcont := fresh "Hcont" in
  let Hin := fresh "Hin" in
  let Herr := fresh "Herr" in
  intros ? ? ? ? container doc err Hconn Hcont Hin Herr;
  split_in Hconn; injection Hconn as <- <- <- <-;
  split_in Hin; injection Hin as <-;
  try congruence;
  match goal with
  | H : create_item _ _ = Err ?e0 |- _ => assert (e0 = err) as -> by congruence
  end;
  (split; [eexists; normalize_trace; solve_ends_with|reflexivity]).

Lemma fatal_failures_aux (w : World) (event : EventGridEvent)
    (tr : list io_event) (out : outcome (option HttpResponse)) :
  invoke w event = (tr, out) →
  ((length (List.filter is_fetch tr) <= 1)%nat
   ∧ (length (List.filter is_analysis tr) <= 1)%nat
   ∧ (length (writes tr) <= 1)%nat)
  ∧ (∀ connection_string container_name blob_name e,
       In (BlobDownload connection_string container_name blob_name) tr →
       download_blob w connection_string container_name blob_name = Err e →
       (∃ msg, ends_with tr [Log ERROR msg (Some e)])
       ∧ out = Returned None
       ∧ List.filter is_analysis tr = [] ∧ writes tr = [])
  ∧ (∀ endpoint key model content e,
       In (AnalyzeDocument endpoint key model content) tr →
       begin_analyze_document w endpoint key model content = Err e →
       (∃ msg, ends_with tr [Log ERROR msg (Some e)])
       ∧ out = Returned None
       ∧ writes tr = [])
  ∧ (∀ endpoint key database container_name container body e,
       In (CosmosConnect endpoint key database container_name) tr →
       cosmos_container_client w endpoint key database container_name = Ok container →
       In (CosmosCreateItem body) tr →
       create_item container body = Err e →
       (∃ msg, ends_with tr [Log ERROR msg (Some e);
                             Log INFO "--- FUNCTION FINISHED ---" None])
       ∧ out = Returned None).
Proof.
  exec_handler.
  all: intros [= <- <-].
  all: split; [simplify_filters; split; [|split]; lia|].
  all: split; [fetch_failure_case|].
  all: split; [analysis_failure_case|write_failure_case].
Qed.

(** C8 (as the code has it). When the blob fetch, the extraction call or
    the document write raises, the failure is logged at error level with
    the exception and its traceback, and the run stops there: after a
    failed fetch or extraction that record is the last of the trace and
    nothing was extracted further or written; after a failed write only
    the closing record follows. The handler then returns normally to the
    host: the exception does not leave it. No call is repeated: a run
    holds at most one fetch, one extraction call and one write. *)
Theorem fatal_failures (w : World) (event : EventGridEvent) :
  ((length (List.filter is_fetch (invoke w event).1) <= 1)%nat
   ∧ (length (List.filter is_analysis (invoke w event).1) <= 1)%nat
   ∧ (length (writes (invoke w event).1) <= 1)%nat)
  ∧ (∀ connection_string container_name blob_name e,
       In (BlobDownload connection_string container_name blob_name) (invoke w event).1 →
       download_blob w connection_string container_name blob_name = Err e →
       (∃ msg, ends_with (invoke w event).1 [Log ERROR msg (Some e)])
       ∧ (invoke w event).2 = Returned None
       ∧ List.filter is_analysis (invoke w event).1 = []
       ∧ writes (invoke w event).1 = [])
  ∧ (∀ endpoint key model content e,
       In (AnalyzeDocument endpoint key model content) (invoke w event).1 →
       begin_analyze_document w endpoint key model content = Err e →
       (∃ msg, ends_with (invoke w event).1 [Log ERROR msg (Some e)])
       ∧ (invoke w event).2 = Returned None
       ∧ writes (invoke w event).1 = [])
  ∧ (∀ endpoint key database container_name container body e,
       In (CosmosConnect endpoint key database container_name) (invoke w event).1 →
       cosmos_container_client w endpoint key database container_name = Ok container →
       In (CosmosCreateItem body) (invoke w event).1 →
       create_item container body = Err e →
       (∃ msg, ends_with (invoke w event).1
                 [Log ERROR msg (Some e); Log INFO "--- FUNCTION FINISHED ---" None])
       ∧ (invoke w event).2 = Returned None).
Proof.
  apply (fatal_failures_aux w event (invoke w event).1 (invoke w event).2).
  destruct (invoke w event). reflexivity.
Qed.

Lemma fatal_failures_witness :
  (∃ msg, ends_with (invoke world_fetch_fails sample_event).1
            [Log ERROR msg (Some sample_error)])
  ∧ (invoke world_fetch_fails sample_event).2 = Returned None
  ∧ List.filter is_analysis (invoke world_fetch_fails sample_event).1 = []
  ∧ writes (invoke world_fetch_fails sample_event).1 = [].
Proof.
  apply (proj1 (proj2 (fatal_failures world_fetch_fails sample_event))
           "UseDevelopmentStorage=true" "container" "user123/subdirABC/receipt.jpg"
           sample_error); [|reflexivity].
  vm_compute. repeat first [left; reflexivity | right].
Defined.

(** C8 as stated fails on "the invocation ends in failure": in the runs
    where the blob fetch, the extraction call or the document write
    raises, the handler returns normally, exactly as the run that
    succeeds does. *)
Lemma fatal_failures_counterexample :
  (In (BlobDownload "UseDevelopmentStorage=true" "container"
         "user123/subdirABC/receipt.jpg") (invoke world_fetch_fails sample_event).1
   ∧ download_blob world_fetch_fails "UseDevelopmentStorage=true" "container"
       "user123/subdirABC/receipt.jpg" = Err sample_error
   ∧ ¬ ends_in_failure (invoke world_fetch_fails sample_event).2)
  ∧ (In (AnalyzeDocument "https://di.example" "di-key" "TrainingHard1" [])
        (invoke world_analysis_fails sample_event).1
     ∧ begin_analyze_document world_analysis_fails "https://di.example" "di-key"
         "TrainingHard1" [] = Err sample_error
     ∧ ¬ ends_in_failure (invoke world_analysis_fails sample_event).2)
  ∧ (length (writes (invoke world_write_fails sample_event).1) = 1%nat
     ∧ (∀ body, create_item (mkCosmosContainer (λ _, Err sample_error)) body
                = Err sample_error)
     ∧ ¬ ends_in_failure (invoke world_write_fails sample_event).2)
  ∧ (invoke world_fetch_fails sample_event).2 = (invoke sample_world sample_event).2.
Proof.
  assert ((invoke world_fetch_fails sample_event).2 = Returned None) as E1
    by (vm_compute; reflexivity).
  assert ((invoke world_analysis_fails sample_event).2 = Returned None) as E2
    by (vm_compute; reflexivity).
  assert ((invoke world_write_fails sample_event).2 = Returned None) as E3
    by (vm_compute; reflexivity).
  rewrite E1, E2, E3. repeat split; try (intros []); try reflexivity.
  all: vm_compute; first [reflexivity | repeat first [left; reflexivity | right]].
Qed.

(** ** Further facts on strings and paths *)

Section SplitJoin.
Variable sep : ascii.

(** Splitting distributes over a separator. *)
Lemma split_app (a b : string) :
  PyStr.split sep (a +:+ String sep b) = PyStr.split sep a ++ PyStr.split sep b.
Proof.
  induction a as [|c a IH].
  - change ("" +:+ String sep b) with (String sep b).
    cbn [PyStr.split]. rewrite Ascii.eqb_refl. reflexivity.
  - change (String c a +:+ String sep b) with (String c (a +:+ String sep b)).
    cbn [PyStr.split]. rewrite IH.
    destruct (Ascii.eqb c sep); [reflexivity|].
    pose proof (split_not_nil sep a) as Hne.
    destruct (PyStr.split sep a) as [|h t]; [congruence|reflexivity].
Qed.

(** Joining undoes splitting. *)
Lemma join_split (s : string) :
  PyStr.join (String sep EmptyString) (PyStr.split sep s) = s.
Proof.
  induction s as [|c s IH]; [reflexivity|].
  cbn [PyStr.split]. pose proof (split_not_nil sep s) as Hne.
  destruct (Ascii.eqb c sep) eqn:E.
  - apply Ascii.eqb_eq in E. subst c.
    destruct (PyStr.split sep s) as [|h t]; [congruence|].
    cbn [PyStr.join]. cbn [PyStr.join] in IH. rewrite IH. reflexivity.
  - destruct (PyStr.split sep s) as [|h t]; [congruence|].
    destruct t as [|h' t].
    + cbn [PyStr.join] in *. rewrite IH. reflexivity.
    + cbn [PyStr.join] in *. rewrite <- IH. reflexivity.
Qed.

Lemma string_app_assoc (a b c : string) : (a +:+ b) +:+ c = a +:+ (b +:+ c).
Proof.
  induction a as [|x a IH]; [reflexivity|].
  change ((String x a +:+ b) +:+ c) with (String x ((a +:+ b) +:+ c)).
  rewrite IH. reflexivity.
Qed.

Lemma join_app (l1 l2 : list string) :
  l1 ≠ [] → l2 ≠ [] →
  PyStr.join (String sep EmptyString) (l1 ++ l2)
  = PyStr.join (String sep EmptyString) l1 +:+ String sep EmptyString
    +:+ PyStr.join (String sep EmptyString) l2.
Proof.
  intros H1 H2. induction l1 as [|x l1 IH]; [congruence|].
  destruct l1 as [|y l1].
  - destruct l2 as [|z l2]; [congruence|]. reflexivity.
  - change (PyStr.join (String sep EmptyString) ((x :: y :: l1) ++ l2))
      with (x +:+ String sep EmptyString
            +:+ PyStr.join (String sep EmptyString) ((y :: l1) ++ l2)).
    rewrite IH by discriminate.
    change (PyStr.join (String sep EmptyString) (x :: y :: l1))
      with (x +:+ String sep EmptyString +:+ PyStr.join (String sep EmptyString) (y :: l1)).
    rewrite !string_app_assoc. reflexivity.
Qed.

End SplitJoin.

(** X1. URL round trip. When the URL parses, it is rebuilt from what the
    parser returns: its first three segments, the container and, when
    there are more than four segments, the object path; with exactly
    four segments the object path is empty. *)
Theorem url_reconstruction (blob_url container_name blob_path : string) :
  parse_blob_url blob_url = Some (container_name, blob_path) →
  (length (PyStr.split "/" blob_url) = 4%nat →
   blob_path = ""
   ∧ blob_url = PyStr.join "/" (take 3 (PyStr.split "/" blob_url))
                +:+ "/" +:+ container_name)
  ∧ ((4 < length (PyStr.split "/" blob_url))%nat →
     blob_url = PyStr.join "/" (take 3 (PyStr.split "/" blob_url))
                +:+ "/" +:+ container_name +:+ "/" +:+ blob_path).
Proof.
  unfold parse_blob_url. intros H.
  destruct (PyStr.split "/" blob_url !! 3%nat) as [c|] eqn:H3; [|discriminate].
  injection H as -> <-.
  pose proof (join_split "/" blob_url) as Hjoin.
  pose proof (take_drop_middle _ _ _ H3) as Hparts.
  pose proof (lookup_lt_Some _ _ _ H3) as Hlen.
  assert (take 3 (PyStr.split "/" blob_url) ≠ []) as Hne.
  { intros Hnil. apply (f_equal length) in Hnil. rewrite length_take in Hnil.
    cbn [length] in Hnil. lia. }
  set (pre := take 3 (PyStr.split "/" blob_url)) in *.
  split.
  - intros H4.
    assert (drop 4 (PyStr.split "/" blob_url) = []) as Hd
      by (apply drop_ge; lia).
    rewrite Hd in *. split; [reflexivity|].
    rewrite <- Hjoin at 1. rewrite <- Hparts.
    rewrite (join_app "/") by (assumption || discriminate). reflexivity.
  - intros H5.
    destruct (drop 4 (PyStr.split "/" blob_url)) as [|x l] eqn:Hd.
    { apply (f_equal length) in Hd. rewrite length_drop in Hd. cbn [length] in Hd. lia. }
    rewrite <- Hjoin at 1. rewrite <- Hparts.
    rewrite (join_app "/") by (assumption || discriminate). reflexivity.
Qed.

Lemma url_reconstruction_witness :
  example_url = PyStr.join "/" (take 3 (PyStr.split "/" example_url))
                +:+ "/" +:+ "container" +:+ "/" +:+ "user123/subdirABC/receipt.jpg".
Proof.
  apply (proj2 (url_reconstruction example_url "container"
                  "user123/subdirABC/receipt.jpg" eq_refl)).
  vm_compute. lia.
Defined.

(** X2. The placeholder test holds exactly for the paths of at least two
    segments whose last segment is ".placeholder"; a path that is the
    single segment ".placeholder" does not pass it. *)
Theorem placeholder_last_segment (blob_path : string) :
  is_placeholder blob_path = true
  ↔ ∃ segments, segments ≠ []
                ∧ PyStr.split "/" blob_path = segments ++ [".placeholder"].
Proof.
  unfold is_placeholder. rewrite endswith_spec. split.
  - intros [prefix ->]. exists (PyStr.split "/" prefix). split.
    + apply split_not_nil.
    + change (prefix +:+ "/.placeholder") with (prefix +:+ String "/" ".placeholder").
      rewrite split_app. reflexivity.
  - intros (segments & Hne & Hsplit).
    exists (PyStr.join "/" segments).
    rewrite <- (join_split "/" blob_path) at 1. rewrite Hsplit.
    rewrite (join_app "/") by (assumption || discriminate). reflexivity.
Qed.

Example bare_placeholder_not_skipped :
  is_placeholder ".placeholder" = false ∧ parse_owner ".placeholder" = None.
Proof. split; reflexivity. Qed.

(** ** Further facts on the field mapping *)

Lemma copy_field_lookup (doc : AnalyzedDocument) (key out_key : string) (l : Locals)
    (k : string) :
  full_receipt_data (copy_field doc key out_key l) !! k
  = if decide (out_key = k)
    then match fields doc !! key with
         | Some f => Some (DScalar (get_field_value (Some f)))
         | None => full_receipt_data l !! k
         end
    else full_receipt_data l !! k.
Proof.
  unfold copy_field. destruct (fields doc !! key) as [f|].
  - cbn [set_receipt_data full_receipt_data]. rewrite lookup_insert.
    destruct (decide (out_key = k)); reflexivity.
  - destruct (decide (out_key = k)); reflexivity.
Qed.

Lemma field_name_mapping_aux {R} (r : AnalyzeResult) (doc : AnalyzedDocument)
    (rest : list AnalyzedDocument) (key out_key : string) :
  documents r = Some (doc :: rest) →
  (key, out_key) ∈ top_level_fields →
  ∃ t l,
    extract_fields (R:=R) r = (t, Fall l)
    ∧ full_receipt_data l !! out_key
      = (λ f, DScalar (get_field_value (Some f))) <$> (fields doc !! key).
Proof.
  intros Hdocs Hin.
  unfold extract_fields, read_documents. rewrite Hdocs.
  unfold read_document.
  destruct (read_fecha_eq (R:=R) doc initial_locals eq_refl)
    as (t1 & l1 & E1 & _ & _ & M1 & I1 & K1 & D1).
  destruct (read_monto_eq (R:=R) doc l1 ltac:(rewrite M1; reflexivity))
    as (t2 & l2 & E2 & _ & _ & _ & I2 & K2 & D2).
  destruct (read_items_eq (R:=R) doc l2
              ltac:(rewrite I2, I1; reflexivity) ltac:(rewrite K2, K1; reflexivity))
    as (t3 & l3 & E3 & _ & _ & _ & _ & _ & D3 & _).
  assert (full_receipt_data l1 !! "fechaTransaccion"
          = (λ f, DScalar (get_field_value (Some f))) <$> (fields doc !! "FechaTransaccion"))
    as F1.
  { revert E1. unfold read_fecha.
    destruct (fields doc !! "FechaTransaccion"); monad_unfold; intros [= <- <-].
    - apply lookup_insert_eq.
    - reflexivity. }
  assert (full_receipt_data l2 !! "montoTotal"
          = (λ f, DScalar (get_field_value (Some f))) <$> (fields doc !! "MontoTotal"))
    as F2.
  { revert E2. unfold read_monto.
    destruct (fields doc !! "MontoTotal"); monad_unfold; intros [= <- <-].
    - apply lookup_insert_eq.
    - cbn. rewrite (D1 "montoTotal") by (repeat constructor; discriminate). reflexivity. }
  unfold mbind, M_mbind, M_bind. rewrite E1, E2, E3.
  unfold mret, M_mret, M_ret.
  match goal with
  | |- context [score_items ?x] =>
      destruct (score_items_eq (R:=R) x)
        as (t4 & l4 & E4 & _ & _ & D4 & _); rewrite E4
  end.
  do 2 eexists. split; [reflexivity|].
  unfold top_level_fields in Hin.
  repeat (apply elem_of_cons in Hin as [[= -> ->]|Hin]).
  11: { apply elem_of_nil in Hin. contradiction. }
  all: rewrite (D4 _) by (repeat constructor; discriminate).
  all: rewrite !copy_field_lookup.
  all: repeat (case_decide; try discriminate; try congruence).
  1: rewrite (D3 _) by (repeat constructor; discriminate);
     rewrite (D2 _) by (repeat constructor; discriminate); exact F1.
  1: rewrite (D3 _) by (repeat constructor; discriminate); exact F2.
  all: match goal with
       | |- context [fields ?d !! ?k] => destruct (fields d !! k); [reflexivity|]
       end.
  all: rewrite (D3 _) by (repeat constructor; discriminate).
  all: rewrite (D2 _) by (repeat constructor; discriminate).
  all: rewrite (D1 _) by (repeat constructor; discriminate).
  all: reflexivity.
Qed.

(** X3. The name mapping of the top-level fields. Each of the ten scalar
    fields of the first document is stored under its fixed key with the
    value [get_field_value] gives it, also when that value is null, and
    a field the document lacks leaves no key. *)
Theorem field_name_mapping (r : AnalyzeResult) (doc : AnalyzedDocument)
    (rest : list AnalyzedDocument) (key out_key : string) :
  documents r = Some (doc :: rest) →
  (key, out_key) ∈ top_level_fields →
  ∃ t l,
    extract_fields (R:=option HttpResponse) r = (t, Fall l)
    ∧ full_receipt_data l !! out_key
      = (λ f, DScalar (get_field_value (Some f))) <$> (fields doc !! key).
Proof. apply field_name_mapping_aux. Qed.

Lemma field_name_mapping_witness :
  ∃ t l,
    extract_fields (R:=option HttpResponse) sample_receipt = (t, Fall l)
    ∧ full_receipt_data l !! "montoTotal"
      = (λ f, DScalar (get_field_value (Some f)))
          <$> (fields (mkAnalyzedDocument
                         (<["FechaTransaccion" := date_field (Date 2024 3 7)]>
                            (<["MontoTotal" := number_field (1250 # 100) (Some (99 # 100))]>
                               (<["Items" := array_field sample_items]> ∅))))
               !! "MontoTotal").
Proof.
  apply (field_name_mapping sample_receipt _ [] "MontoTotal" "montoTotal");
    [reflexivity|repeat constructor].
Defined.



Lemma line_item_keys (item : DocumentField) (k : string) (v : pyval) :
  line_item item !! k = Some v →
  k ∈ ["description"; "quantity"; "totalPrice"; "unitPrice"].
Proof.
  unfold line_item, item_keys. cbn [fold_left fst snd].
  destruct (sub_field item "Description"), (sub_field item "Quantity"),
    (sub_field item "TotalPrice"), (sub_field item "UnitPrice").
  all: intros H.
  all: repeat (rewrite lookup_insert in H; case_decide; [subst k; repeat constructor|]).
  all: rewrite lookup_empty in H; discriminate.
Qed.

Lemma line_item_nonempty (item : DocumentField) :
  item_included item = true → line_item item ≠ ∅.
Proof.
  intros (key & Hin & [f Hf])%item_included_iff Hempty.
  assert (∃ out_key, (key, out_key) ∈ item_keys) as [out_key Hk].
  { unfold item_keys.
    repeat (apply elem_of_cons in Hin as [->|Hin]); [..|apply elem_of_nil in Hin; contradiction];
      eexists; repeat constructor. }
  pose proof (line_item_lookup item key out_key Hk) as Hl.
  rewrite Hf, Hempty, lookup_empty in Hl. discriminate.
Qed.

Lemma subfield_confidences_length (item : DocumentField) :
  (length (subfield_confidences item) <= 4)%nat.
Proof.
  unfold subfield_confidences, item_keys. cbn [omap list_omap fst].
  repeat match goal with
         | |- context [match ?o with Some _ => _ | None => _ end] => destruct o
         end; cbn [length]; lia.
Qed.

Lemma flat_map_length_le {A B} (f : A → list B) (n : nat) (l : list A) :
  (∀ x, (length (f x) <= n)%nat) → (length (flat_map f l) <= n * length l)%nat.
Proof.
  intros Hf. induction l as [|x l IH]; cbn [flat_map length]; [lia|].
  rewrite length_app. specialize (Hf x). lia.
Qed.

(** X4. What the item loop can produce: at most one line item per
    sub-record of the Items array and at most four confidences per
    sub-record; no line item is empty, and a line item holds none but
    the keys description, quantity, totalPrice and unitPrice. *)
Theorem line_items_well_formed (r : AnalyzeResult) :
  ∃ t l,
    extract_fields (R:=option HttpResponse) r = (t, Fall l)
    ∧ (length (extracted_items l) <= length (items_array r))%nat
    ∧ (length (item_confidences l) <= 4 * length (items_array r))%nat
    ∧ ∀ d, d ∈ extracted_items l →
           d ≠ ∅
           ∧ ∀ k v, d !! k = Some v →
                    k ∈ ["description"; "quantity"; "totalPrice"; "unitPrice"].
Proof.
  destruct (extract_fields_spec (R:=option HttpResponse) r)
    as (t & l & E & _ & _ & _ & Hitems & Hconfs & _).
  exists t, l. split; [exact E|]. split; [|split].
  - rewrite Hitems, length_map. apply List.filter_length_le.
  - rewrite Hconfs. unfold collected_confidences.
    apply flat_map_length_le, subfield_confidences_length.
  - intros d Hd. rewrite Hitems in Hd.
    apply list_elem_of_fmap in Hd as (item & -> & Hin).
    apply list_elem_of_In, List.filter_In in Hin as [_ Hinc].
    split; [apply line_item_nonempty, Hinc|apply line_item_keys].
Qed.

(** ** Further facts on the username resolver *)

Ltac exec_resolver :=
  unfold mysql_credentials, ssl_options_of, ssl_ca_path;
  unfold get_username_from_db, try_block, connect_phase, query_phase, except_clause,
    finally_clause;
  monad_unfold; cbn beta iota zeta;
  repeat case_step.

(** Case analysis of a membership in a trace, one segment at a time. *)
Ltac cases_in H :=
  cbn [fst] in H;
  repeat lazymatch type of H with
    | In _ (_ ++ _) => apply in_app_or in H; destruct H as [H|H]
    | In _ (_ :: _) => destruct H as [H|H]
    | In _ [] => destruct H
    end;
  first
    [ discriminate H
    | exfalso;
      match goal with
      | Hr : Forall (λ e, resolver_event e = true) ?t |- _ =>
          let H' := fresh in
          pose proof (in_resolver_trace _ _ Hr H) as H'; discriminate H'
      end
    | exfalso;
      match goal with
      | Hc : calls ?t = [] |- _ =>
          let H' := fresh in
          pose proof (in_log_trace _ _ Hc H) as H'; discriminate H'
      end
    | idtac ].

(** A membership that holds in a concrete position of a trace. *)
Ltac solve_in :=
  repeat first [ left; reflexivity | right | apply in_or_app; right ].

(** X5. With complete credentials, a connection that is established, a
    cursor and a query that answers with a row, the resolver returns the
    first column of that row. *)
Theorem resolver_returns_stored_name (w : World) (user_id : string)
    (cnx : Connection) (cursor : Cursor) (v : pyval) (row : list pyval) :
  forallb PyStr.truthy_opt (mysql_credentials w) = true →
  pymysql_connect w (default "" (environ w !! "MYSQL_USER"))
    (default "" (environ w !! "MYSQL_PASSWORD"))
    (default "" (environ w !! "MYSQL_HOST"))
    (default "" (environ w !! "MYSQL_DATABASE")) (ssl_options_of w) = Ok cnx →
  cnx_cursor cnx = Ok cursor →
  run_query cursor "SELECT username FROM users WHERE id = %s" user_id
  = Ok (Some (v :: row)) →
  (get_username_from_db w user_id).2 = Return v.
Proof.
  exec_resolver.
  all: cbn [snd]; intros Hcred Hconn Hcur Hq; try congruence.
  all: match goal with
       | H : negb _ = true |- _ => apply negb_true_iff in H; congruence
       end.
Qed.

Lemma resolver_returns_stored_name_witness :
  (get_username_from_db sample_world "user123").2 = Return (PStr "alice").
Proof.
  apply (resolver_returns_stored_name sample_world "user123" sample_connection
           (mkCursor (λ _ _, Ok (Some [PStr "alice"]))) (PStr "alice") []);
    vm_compute; reflexivity.
Defined.

(** X6. Without complete credentials (one of host, user, password,
    database missing or empty) the resolver makes no call at all and
    returns null. *)
Theorem resolver_credentials_gate (w : World) (user_id : string) :
  forallb PyStr.truthy_opt (mysql_credentials w) = false →
  calls (get_username_from_db w user_id).1 = []
  ∧ (get_username_from_db w user_id).2 = Return PNone.
Proof.
  exec_resolver.
  all: cbn [fst snd]; intros Hcred; try (split; reflexivity).
  all: match goal with
       | H : negb _ = false |- _ => apply negb_false_iff in H; congruence
       end.
Qed.

Lemma resolver_credentials_gate_witness :
  calls (get_username_from_db
           (with_environ (delete "MYSQL_PASSWORD" sample_environ) sample_world)
           "user123").1 = []
  ∧ (get_username_from_db
       (with_environ (delete "MYSQL_PASSWORD" sample_environ) sample_world)
       "user123").2 = Return PNone.
Proof.
  apply (resolver_credentials_gate
           (with_environ (delete "MYSQL_PASSWORD" sample_environ) sample_world) "user123").
  vm_compute. reflexivity.
Defined.

(** X7. Resource discipline. Once the connection is established and
    open, every way out of the resolver (query answered, no row, cursor
    or query raising) ends with the connection being closed and the
    closing log record last; the cursor is closed exactly when it was
    created. *)
Theorem resolver_closes_connection (w : World) (user_id : string) (cnx : Connection) :
  forallb PyStr.truthy_opt (mysql_credentials w) = true →
  pymysql_connect w (default "" (environ w !! "MYSQL_USER"))
    (default "" (environ w !! "MYSQL_PASSWORD"))
    (default "" (environ w !! "MYSQL_HOST"))
    (default "" (environ w !! "MYSQL_DATABASE")) (ssl_options_of w) = Ok cnx →
  cnx_open cnx = true →
  ends_with (get_username_from_db w user_id).1
    [MySqlClose; Log INFO "MySQL connection closed." None]
  ∧ (In MySqlCursorClose (get_username_from_db w user_id).1
     ↔ ∃ cursor, cnx_cursor cnx = Ok cursor).
Proof.
  exec_resolver.
  all: cbn [fst snd]; intros Hcred Hconn Hopen; try congruence.
  all: try match goal with
       | H : negb _ = true |- _ => apply negb_true_iff in H; congruence
       end.
  all: match goal with
       | H : pymysql_connect _ _ _ _ _ _ = Ok ?c |- _ =>
           tryif constr_eq c cnx then fail else (assert (c = cnx) as -> by congruence)
       end.
  all: split; [normalize_trace; solve_ends_with|].
  all: split; [intros H; cases_in H; eauto|].
  all: intros [cur Hcur]; try congruence; solve_in.
Qed.

Lemma resolver_closes_connection_witness :
  ends_with (get_username_from_db sample_world "user123").1
    [MySqlClose; Log INFO "MySQL connection closed." None]
  ∧ (In MySqlCursorClose (get_username_from_db sample_world "user123").1
     ↔ ∃ cursor, cnx_cursor sample_connection = Ok cursor).
Proof.
  apply (resolver_closes_connection sample_world "user123" sample_connection);
    vm_compute; reflexivity.
Defined.

(** X8. A connection is attempted only with complete credentials: with
    the four values of the environment, and with the certificate path
    exactly when the path is non-empty and its file exists. *)
Theorem resolver_connect_arguments (w : World) (user_id : string)
    (user password host database : string) (ssl_ca : option string) :
  In (MySqlConnect user password host database ssl_ca) (get_username_from_db w user_id).1 →
  forallb PyStr.truthy_opt (mysql_credentials w) = true
  ∧ environ w !! "MYSQL_USER" = Some user
  ∧ environ w !! "MYSQL_PASSWORD" = Some password
  ∧ environ w !! "MYSQL_HOST" = Some host
  ∧ environ w !! "MYSQL_DATABASE" = Some database
  ∧ ssl_ca = ssl_options_of w.
Proof.
  exec_resolver.
  all: intros Hin; cases_in Hin.
  all: injection Hin as <- <- <- <- <-.
  all: match goal with
       | H : negb _ = false |- _ => apply negb_false_iff in H
       end.
  all: split; [assumption|].
  all: match goal with
       | H : forallb _ _ = true |- _ =>
           cbn [forallb] in H; rewrite !andb_true_iff in H;
           destruct H as (H1 & H2 & H3 & H4 & _)
       end.
  all: destruct (environ w !! "MYSQL_HOST"), (environ w !! "MYSQL_USER"),
         (environ w !! "MYSQL_PASSWORD"), (environ w !! "MYSQL_DATABASE");
       try discriminate.
  all: repeat split; reflexivity.
Qed.

Lemma resolver_connect_arguments_witness :
  forallb PyStr.truthy_opt (mysql_credentials sample_world) = true
  ∧ environ sample_world !! "MYSQL_USER" = Some "reader"
  ∧ environ sample_world !! "MYSQL_PASSWORD" = Some "secret"
  ∧ environ sample_world !! "MYSQL_HOST" = Some "db.example"
  ∧ environ sample_world !! "MYSQL_DATABASE" = Some "app"
  ∧ Some "/home/site/wwwroot/receipt_processor/cert_combined_ca.pem"
    = ssl_options_of sample_world.
Proof.
  apply (resolver_connect_arguments sample_world "user123").
  vm_compute. repeat first [left; reflexivity | right].
Defined.

(** X9. The resolver closes nothing it did not open: a close record
    means that the connection was established and is open. *)
Theorem resolver_close_implies_open (w : World) (user_id : string) :
  In MySqlClose (get_username_from_db w user_id).1 →
  ∃ cnx,
    pymysql_connect w (default "" (environ w !! "MYSQL_USER"))
      (default "" (environ w !! "MYSQL_PASSWORD"))
      (default "" (environ w !! "MYSQL_HOST"))
      (default "" (environ w !! "MYSQL_DATABASE")) (ssl_options_of w) = Ok cnx
    ∧ cnx_open cnx = true.
Proof.
  exec_resolver.
  all: intros Hin; cases_in Hin.
  all: eauto.
Qed.

Lemma resolver_close_implies_open_witness :
  ∃ cnx,
    pymysql_connect sample_world (default "" (environ sample_world !! "MYSQL_USER"))
      (default "" (environ sample_world !! "MYSQL_PASSWORD"))
      (default "" (environ sample_world !! "MYSQL_HOST"))
      (default "" (environ sample_world !! "MYSQL_DATABASE"))
      (ssl_options_of sample_world) = Ok cnx
    ∧ cnx_open cnx = true.
Proof.
  apply (resolver_close_implies_open sample_world "user123").
  vm_compute. repeat first [left; reflexivity | right].
Defined.

(** X10. The resolver's one query is the fixed parameterised statement,
    with the user identifier passed as its parameter and never spliced
    into the text. *)
Theorem resolver_query_fixed (w : World) (user_id query param : string) :
  In (MySqlQuery query param) (get_username_from_db w user_id).1 →
  query = "SELECT username FROM users WHERE id = %s" ∧ param = user_id.
Proof.
  exec_resolver.
  all: intros Hin; cases_in Hin.
  all: injection Hin as <- <-; split; reflexivity.
Qed.

Lemma resolver_query_fixed_witness :
  "SELECT username FROM users WHERE id = %s" = "SELECT username FROM users WHERE id = %s"
  ∧ "user123" = "user123".
Proof.
  apply (resolver_query_fixed sample_world "user123"
           "SELECT username FROM users WHERE id = %s" "user123").
  vm_compute. repeat first [left; reflexivity | right].
Defined.

(** ** Further facts on the handler *)

Lemma default_url_string (event : EventGridEvent) (s : string) :
  default PNone (event_json event !! "url") = PStr s →
  event_json event !! "url" = Some (PStr s).
Proof. destruct (event_json event !! "url"); cbn; congruence. Qed.

(** The facts a path through the creation branch has established, in
    the form the statements use. *)
Ltac path_facts :=
  repeat match goal with
    | H : (event_type _ =? _) = true |- _ => apply String.eqb_eq in H
    | H : default PNone (event_json _ !! "url") = PStr _ |- _ =>
        apply default_url_string in H
    | H : negb _ = false |- _ => apply negb_false_iff in H
    | H : negb _ = true |- _ => apply negb_true_iff in H
    end.

(** Symbolic execution of the run a goal is about, executed once. *)
Ltac exec_invoke :=
  match goal with
  | |- context [invoke ?w ?e] =>
      let tr := fresh "tr" in
      let out := fresh "out" in
      let E := fresh "E" in
      destruct (invoke w e) as [tr out] eqn:E; cbn [fst snd]; revert E;
      exec_handler; intros [= <- <-]
  end.

(** X11. A collaborator is reached only by a BlobCreated event whose URL
    is a string that parses to a container, an object path that is no
    placeholder, an owner and a subdirectory; the first collaborator
    called is then the username resolver, with that owner. *)
Theorem calls_need_wellformed_event (w : World) (event : EventGridEvent) :
  calls (invoke w event).1 ≠ [] →
  event_type event = "Microsoft.Storage.BlobCreated"
  ∧ ∃ url container_name blob_path user_id random_subdirectory,
      event_json event !! "url" = Some (PStr url)
      ∧ parse_blob_url url = Some (container_name, blob_path)
      ∧ is_placeholder blob_path = false
      ∧ parse_owner blob_path = Some (user_id, random_subdirectory)
      ∧ hd_error (calls (invoke w event).1) = Some (CallResolver user_id).
Proof.
  exec_invoke.
  all: normalize_trace; intros Hcalls'.
  all: try (exfalso; apply Hcalls'; reflexivity).
  all: path_facts.
  all: split; [assumption|].
  all: do 5 eexists; repeat (split; [eassumption|]); reflexivity.
Qed.

Lemma calls_need_wellformed_event_witness :
  event_type sample_event = "Microsoft.Storage.BlobCreated"
  ∧ ∃ url container_name blob_path user_id random_subdirectory,
      event_json sample_event !! "url" = Some (PStr url)
      ∧ parse_blob_url url = Some (container_name, blob_path)
      ∧ is_placeholder blob_path = false
      ∧ parse_owner blob_path = Some (user_id, random_subdirectory)
      ∧ hd_error (calls (invoke sample_world sample_event).1)
        = Some (CallResolver user_id).
Proof.
  apply (calls_need_wellformed_event sample_world sample_event).
  vm_compute. discriminate.
Defined.

Lemma default_url_other (event : EventGridEvent) (v : pyval) :
  default PNone (event_json event !! "url") = v → v ≠ PNone →
  event_json event !! "url" = Some v.
Proof. destruct (event_json event !! "url"); cbn; congruence. Qed.

(** X12. Propagation. With an event whose payload is a dictionary and
    collaborators that raise nothing outside [Exception], an exception
    leaves the handler in one case only: a BlobCreated event whose URL
    is a truthy value that is not a string (the [AttributeError] of
    [blob_url.split], which [except IndexError] does not catch); no
    collaborator has been called by then. Every other run returns
    normally. *)
Theorem handler_raises_only_on_bad_url (w : World) (event : EventGridEvent) :
  (∀ e, (invoke w event).2 = Raised e →
        calls (invoke w event).1 = []
        ∧ exc_type e = "AttributeError"
        ∧ event_type event = "Microsoft.Storage.BlobCreated"
        ∧ ∃ v, event_json event !! "url" = Some v
               ∧ pyval_truthy v = true ∧ ∀ s, v ≠ PStr s)
  ∧ (event_type event = "Microsoft.Storage.BlobCreated" →
     ∀ v, event_json event !! "url" = Some v →
          pyval_truthy v = true → (∀ s, v ≠ PStr s) →
          ∃ e, (invoke w event).2 = Raised e).
Proof.
  split.
  - exec_invoke.
    all: intros err Hout; try discriminate Hout.
    all: injection Hout as <-.
    all: path_facts.
    all: split; [reflexivity|]. all: split; [reflexivity|]. all: split; [assumption|].
    all: match goal with
         | H : default PNone _ = ?v |- _ =>
             exists v; split; [apply (default_url_other _ _ H); discriminate|]
         end.
    all: split; [assumption|discriminate].
  - intros Hty v Hurl Htruthy Hstr.
    unfold invoke, func701, blob_created. rewrite Hty, Hurl.
    change ("Microsoft.Storage.BlobCreated" =? "Microsoft.EventGrid.SubscriptionValidationEvent")
      with false.
    change ("Microsoft.Storage.BlobCreated" =? "Microsoft.Storage.BlobCreated") with true.
    cbn [default from_option id]. rewrite Htruthy.
    destruct v; try discriminate Htruthy; try (exfalso; eapply Hstr; reflexivity).
    all: eexists; reflexivity.
Qed.

Lemma handler_raises_only_on_bad_url_witness :
  ∃ e, (invoke sample_world
          (mkEvent "Microsoft.Storage.BlobCreated" {["url" := PNum 7]})).2 = Raised e.
Proof.
  apply (proj2 (handler_raises_only_on_bad_url sample_world
                  (mkEvent "Microsoft.Storage.BlobCreated" {["url" := PNum 7]}))
           eq_refl (PNum 7)); [reflexivity|reflexivity|discriminate].
Defined.

Lemma stage_not_resolver e : resolver_event e = true → is_stage e = false.
Proof. destruct e; (reflexivity || discriminate). Qed.

Lemma stage_not_log e : is_call e = false → is_stage e = false.
Proof. destruct e; (reflexivity || discriminate). Qed.

Ltac simplify_stages :=
  unfold stage_calls;
  repeat
    (progress
       (rewrite ?List.filter_app;
        rewrite ?(filter_resolver_trace is_stage _ stage_not_resolver ltac:(eassumption)),
          ?(filter_log_trace is_stage _ stage_not_log ltac:(eassumption));
        cbn [List.filter is_stage stage_rank Nat.eqb negb app])).

(** X13. Sequencing. In every run the stages are reached in the one
    order resolver, blob fetch, extraction, database client, write, each
    at most once and none before the ones ahead of it. *)
Theorem stages_in_order (w : World) (event : EventGridEvent) :
  map stage_rank (stage_calls (invoke w event).1)
  = seq 1 (length (stage_calls (invoke w event).1))
  ∧ (length (stage_calls (invoke w event).1) <= 5)%nat.
Proof.
  exec_invoke.
  all: simplify_stages; split; [reflexivity|cbn [length]; lia].
Qed.

Lemma settings_present (o : option string) (rest : list (option string)) :
  forallb PyStr.truthy_opt (o :: rest) = true →
  o = Some (default "" o) ∧ forallb PyStr.truthy_opt rest = true.
Proof.
  cbn [forallb]. intros H. apply andb_true_iff in H as [H1 H2].
  split; [|assumption]. destruct o; [reflexivity|discriminate].
Qed.

(** X14. The blob is fetched only after both extraction settings were
    found, with the storage connection string of the environment and
    with the container and the object path the event's URL parses to. *)
Theorem fetch_arguments (w : World) (event : EventGridEvent)
    (connection_string container_name blob_name : string) :
  In (BlobDownload connection_string container_name blob_name) (invoke w event).1 →
  forallb PyStr.truthy_opt (di_settings w) = true
  ∧ environ w !! "AzureWebJobsStorage" = Some connection_string
  ∧ ∃ url, event_json event !! "url" = Some (PStr url)
           ∧ parse_blob_url url = Some (container_name, blob_name).
Proof.
  exec_invoke.
  all: intros Hin; cases_in Hin.
  all: injection Hin as <- <- <-.
  all: path_facts.
  all: split; [assumption|]. all: split; [reflexivity|].
  all: eexists; split; eassumption.
Qed.

Lemma fetch_arguments_witness :
  forallb PyStr.truthy_opt (di_settings sample_world) = true
  ∧ environ sample_world !! "AzureWebJobsStorage" = Some "UseDevelopmentStorage=true"
  ∧ ∃ url, event_json sample_event !! "url" = Some (PStr url)
           ∧ parse_blob_url url = Some ("container", "user123/subdirABC/receipt.jpg").
Proof.
  apply (fetch_arguments sample_world sample_event).
  vm_compute. repeat first [left; reflexivity | right].
Defined.

(** X15. The extraction service is called with the model
    "TrainingHard1", the endpoint and the key of the environment, and
    the image of the blob fetched in this run: its grayscale conversion,
    or the original bytes when the conversion raised. *)
Theorem analysis_input (w : World) (event : EventGridEvent)
    (endpoint key model : string) (content : list Byte.byte) :
  In (AnalyzeDocument endpoint key model content) (invoke w event).1 →
  model = "TrainingHard1"
  ∧ environ w !! "DI_ENDPOINT" = Some endpoint
  ∧ environ w !! "DI_KEY" = Some key
  ∧ ∃ connection_string container_name blob_name raw,
      In (BlobDownload connection_string container_name blob_name) (invoke w event).1
      ∧ download_blob w connection_string container_name blob_name = Ok raw
      ∧ content = normalized_image w raw.
Proof.
  exec_invoke.
  all: intros Hin; cases_in Hin.
  all: injection Hin as <- <- <- <-.
  all: path_facts.
  all: match goal with
       | H : forallb PyStr.truthy_opt [_; _] = true |- _ =>
           apply settings_present in H as [H1 H2];
           apply settings_present in H2 as [H2 _]
       end.
  all: split; [reflexivity|]. all: split; [assumption|]. all: split; [assumption|].
  all: do 4 eexists; split; [solve_in|]; split; [eassumption|].
  all: unfold normalized_image;
    match goal with
    | H : grayscale_jpeg _ _ = _ |- _ => rewrite H; reflexivity
    end.
Qed.

Lemma analysis_input_witness :
  "TrainingHard1" = "TrainingHard1"
  ∧ environ sample_world !! "DI_ENDPOINT" = Some "https://di.example"
  ∧ environ sample_world !! "DI_KEY" = Some "di-key"
  ∧ ∃ connection_string container_name blob_name raw,
      In (BlobDownload connection_string container_name blob_name)
        (invoke sample_world sample_event).1
      ∧ download_blob sample_world connection_string container_name blob_name = Ok raw
      ∧ [] = normalized_image sample_world raw.
Proof.
  apply (analysis_input sample_world sample_event "https://di.example" "di-key"
           "TrainingHard1" []).
  vm_compute. repeat first [left; reflexivity | right].
Defined.






Lemma ends_with_single_inv (t : list io_event) (a : io_event) (t2 : list io_event)
    (x : io_event) :
  ends_with (t ++ a :: t2) [x] → ends_with (a :: t2) [x].
Proof.
  intros [p Hp].
  destruct (exists_last (l:=a :: t2)) as (q & y & Hq); [discriminate|].
  rewrite Hq in Hp. rewrite app_assoc in Hp.
  apply app_inj_tail in Hp as [_ ->]. exists q. exact Hq.
Qed.

Lemma ends_with_single (a x : io_event) : ends_with [a] [x] → a = x.
Proof.
  intros [p Hp]. change [a] with ([] ++ [a]) in Hp.
  apply app_inj_tail in Hp as [_ ?]. assumption.
Qed.

(** The last record of a trace that ends with a single known record. *)
Ltac last_record H :=
  repeat lazymatch type of H with
    | ends_with [?a] [_] => apply ends_with_single in H
    | ends_with (?a :: ?b :: ?t) [_] => apply (ends_with_single_inv [a] b t) in H
    | ends_with (?a :: ?t1 ++ ?b :: ?t2) [_] =>
        apply (ends_with_single_inv (a :: t1) b t2) in H
    | ends_with (?t1 ++ ?b :: ?t2) [_] => apply (ends_with_single_inv t1 b t2) in H
    end.

(** X18. The two records that bracket a run. Every run starts with the
    opening record. The closing record is written by the [finally] of
    the database block only: it ends the trace exactly in the runs that
    reached the construction of the database client; a run that returns
    earlier does not end with it. *)
Theorem closing_record (w : World) (event : EventGridEvent) :
  hd_error (invoke w event).1 = Some (Log INFO "--- FUNCTION STARTED ---" None)
  ∧ (ends_with (invoke w event).1 [Log INFO "--- FUNCTION FINISHED ---" None]
     ↔ ∃ endpoint key database container_name,
         In (CosmosConnect endpoint key database container_name) (invoke w event).1).
Proof.
  exec_invoke.
  all: normalize_trace; split; [reflexivity|].
  all: split;
    [ intros Hends;
      first [ solve [do 4 eexists; solve_in]
            | exfalso; last_record Hends; cbn [append] in Hends; discriminate Hends ]
    | intros (ep & k & db & c & Hin); cases_in Hin; solve_ends_with ].
Qed.

(** X19. An HTTP response is returned for the subscription handshake and
    for nothing else: the response is 200 with the validation code of
    the event echoed, null when the event has none; every other run that
    returns gives no response. The handshake calls no collaborator. *)
Theorem response_iff_validation (w : World) (event : EventGridEvent)
    (resp : HttpResponse) :
  ((invoke w event).2 = Returned (Some resp)
   ↔ event_type event = "Microsoft.EventGrid.SubscriptionValidationEvent"
     ∧ resp = mkHttpResponse
                {["validationResponse" :=
                    default PNone (event_json event !! "validationCode")]} 200)
  ∧ (event_type event = "Microsoft.EventGrid.SubscriptionValidationEvent" →
     calls (invoke w event).1 = []).
Proof.
  exec_invoke.
  all: path_facts.
  all: repeat match goal with
         | H : (event_type _ =? _) = false |- _ => apply String.eqb_neq in H
         end.
  all: split; [split|].
  all: try (intros [= <-]; split; [assumption|reflexivity]).
  all: try (intros [Hty ->]; first [reflexivity | contradiction]).
  all: try discriminate.
  all: try (intros Hty; first [reflexivity | contradiction]).
Qed.
